(** * neurax.modules.cell : the [Cell] module

    A shallow embedding of [src/neurax/modules/cell.py] and the properties of
    its morphology indexing, conductance assembly and step orchestration.

    The arithmetic of the arrays is kept abstract ([Arith], [Scalar]): every
    general theorem holds for whatever the array dtype computes, and the
    concrete evaluations at the end of the file run on exact rationals, on
    inputs whose intermediate values are all dyadic. *)

From Stdlib Require Import ZArith QArith.
From stdpp Require Import gmap strings list sorting.

Close Scope Q_scope.
Open Scope Z_scope.
Open Scope nat_scope.
Open Scope string_scope.
Open Scope list_scope.

(** ** Exceptions and the error monad *)

Inductive exn : Type :=
  | AssertionError
  | KeyError
  | IndexError
  | TypeError
  | ValueError.

Inductive result (A : Type) : Type :=
  | Raise (e : exn)
  | Ok (a : A).
Arguments Raise {A} e.
Arguments Ok {A} a.

Global Instance result_ret : MRet result := fun A a => Ok a.
Global Instance result_bind : MBind result := fun A B f m =>
  match m with
  | Raise e => Raise e
  | Ok a => f a
  end.
Global Instance result_fmap : FMap result := fun A B f m =>
  match m with
  | Raise e => Raise e
  | Ok a => Ok (f a)
  end.

(** [mapM] specialised to [result]: the first failure wins. *)
Fixpoint traverse {A B : Type} (f : A -> result B) (l : list A) : result (list B) :=
  match l with
  | [] => Ok []
  | x :: l' => y ← f x; ys ← traverse f l'; Ok (y :: ys)
  end.

(** ** Arithmetic as Python dispatches it

    The operators [+], [*], [/] and [**] of the source act on scalars and,
    elementwise, on arrays of equal shape. *)

Class Arith (T : Type) : Type := {
  add : T -> T -> T;
  mul : T -> T -> T;
  div : T -> T -> T;
  pow : T -> Z -> T
}.

Declare Scope py_scope.
Delimit Scope py_scope with py.
Infix "⊕" := add (at level 50, left associativity) : py_scope.
Infix "⊗" := mul (at level 40, left associativity) : py_scope.
Infix "⊘" := div (at level 40, left associativity) : py_scope.
Infix "^^" := pow (at level 30, right associativity) : py_scope.

(** The element type of the arrays: the operators, the literal [0.0] and the
    conversion of a Python [int] that meets an array. *)
Class Scalar (F : Type) : Type := {
  scalar_arith :: Arith F;
  zero : F;
  of_int : Z -> F
}.

Global Instance array_arith {F : Type} `{Arith F} : Arith (list F) := {
  add := zip_with add;
  mul := zip_with mul;
  div := zip_with div;
  pow := fun xs n => (fun x => pow x n) <$> xs
}.

(** ** The jax.numpy operations the module uses *)

(** [jnp.arange(a, b)] *)
Definition arange (a b : Z) : list Z := seqZ a (b - a).

(** A negative index counts from the end of the axis. *)
Definition norm_index (n : nat) (i : Z) : Z :=
  if (i <? 0)%Z then (i + Z.of_nat n)%Z else i.

(** Reading: an index past either end is clipped to the axis; an axis of
    size 0 has nothing to read. *)
Definition clip_index (n : nat) (i : Z) : nat :=
  Z.to_nat (Z.max 0 (Z.min (norm_index n i) (Z.of_nat n - 1))).

Definition jnp_get {A : Type} (l : list A) (i : Z) : result A :=
  match l !! clip_index (length l) i with
  | Some x => Ok x
  | None => Raise IndexError
  end.

(** [x[idx]] for an index array [idx] *)
Definition gather {A : Type} (l : list A) (idx : list Z) : result (list A) :=
  traverse (jnp_get l) idx.

(** [m[rows, col]] for an index array [rows] and a scalar [col] *)
Definition gather2 {A : Type} (m : list (list A)) (rows : list Z) (col : Z)
  : result (list A) :=
  traverse (fun r => row ← jnp_get m r; jnp_get row col) rows.

(** Writing: an index past either end is dropped. *)
Definition in_bounds (n : nat) (i : Z) : option nat :=
  let j := norm_index n i in
  if decide (0 <= j < Z.of_nat n)%Z then Some (Z.to_nat j) else None.

(** Rows of [cols] elements each, in row-major order. *)
Fixpoint chunks {A : Type} (rows cols : nat) (l : list A) : list (list A) :=
  match rows with
  | O => []
  | S r => take cols l :: chunks r cols (drop cols l)
  end.

(** [jnp.reshape(x, (rows, cols))] of a flat array *)
Definition jnp_reshape {A : Type} (l : list A) (rows cols : nat)
  : result (list (list A)) :=
  if decide (length l = rows * cols) then Ok (chunks rows cols l)
  else Raise TypeError.

(** [m.flatten(order="C")] *)
Definition flatten {A : Type} (m : list (list A)) : list A := concat m.

(** [jnp.asarray] of a list of rows: the rows must agree in length. *)
Definition jnp_asarray2 {A : Type} (rows : list (list A)) : result (list (list A)) :=
  match rows with
  | [] => Ok []
  | r :: _ =>
      if decide (Forall (fun r' => length r' = length r) rows) then Ok rows
      else Raise ValueError
  end.

(** [d[key]] on a Python dict *)
Definition dict_get {A : Type} (d : gmap string A) (key : string) : result A :=
  match d !! key with
  | Some v => Ok v
  | None => Raise KeyError
  end.

(** [m.shape == (rows, cols)] *)
Definition has_shape {A : Type} (m : list (list A)) (rows cols : nat) : Prop :=
  length m = rows /\ Forall (fun r => length r = cols) m.

(** [m.at[r, c].add(v)] *)
Definition at_add {F : Type} `{Arith F} (m : list (list F)) (r c : Z) (v : F)
  : list (list F) :=
  match in_bounds (length m) r with
  | Some i =>
      alter (fun row =>
               match in_bounds (length row) c with
               | Some j => alter (fun x => (x ⊕ v)%py) j row
               | None => row
               end) i m
  | None => m
  end.

(** ** Conductance formula (cell.py, lines 83-84) *)

Definition compute_coupling_cond {T : Type} `{Arith T} (rad1 rad2 r_a l1 l2 : T) : T :=
  (rad1 ⊗ rad2 ^^ 2 ⊘ r_a ⊘ (rad2 ^^ 2 ⊗ l1 ⊕ rad1 ^^ 2 ⊗ l2) ⊘ l1)%py.

(** [jnp.unique]: the distinct values, ascending. *)
Definition jnp_unique (l : list Z) : list Z := merge_sort Z.le (remove_dups l).

(** Monadic left fold: a Python [for] loop whose body may raise. *)
Fixpoint foldM {A B : Type} (f : A -> B -> result A) (l : list B) (a : A) : result A :=
  match l with
  | [] => Ok a
  | b :: l' => a' ← f a b; foldM f l' a'
  end.

(** ** Morphology helpers of [neurax.cell] *)

(** Modelled from the spec: the depth recursion behind [compute_levels] of
    [neurax.cell], which is not in this file. "root level = 0, each branch's
    level = parent's level + 1"; the fuel bounds the walk up the parents. *)
Fixpoint level_of (parents : list Z) (fuel : nat) (i : nat) : Z :=
  match fuel with
  | O => 0%Z
  | S fuel' =>
      match parents !! i with
      | Some p =>
          if decide (p = (-1)%Z) then 0%Z
          else (level_of parents fuel' (Z.to_nat p) + 1)%Z
      | None => 0%Z
      end
  end.

(** Modelled from the spec: [compute_levels] of [neurax.cell], which is not
    in this file. "levels[i]: topological depth of branch i from the root". *)
Definition compute_levels (parents : list Z) : list Z :=
  level_of parents (length parents) <$> seq 0 (length parents).

(** ** Data model *)

(** An attribute that [Cell.__init__] does not assign: absent from the
    instance, bound to [None], or bound to a value. *)
Inductive slot (A : Type) : Type :=
  | Unset
  | PyNone
  | Val (a : A).
Arguments Unset {A}.
Arguments PyNone {A}.
Arguments Val {A} a.

(** The node table [pd.DataFrame(dict(comp_index=..., branch_index=...,
    cell_index=...))]. *)
Record DataFrame : Type := mkDataFrame {
  comp_index : list Z;
  branch_index : list Z;
  cell_index : list Z
}.

Section CellModule.
Context {F : Type} {SF : Scalar F}.
(** The channels of a compartment are opaque to this module. *)
Context {Channels : Type}.

Record Compartment : Type := mkCompartment {
  channels : Channels
}.

(** [neurax.modules.branch.Branch], as far as this module reads it. *)
Record Branch : Type := mkBranch {
  Branch_nseg : nat;
  Branch_compartments : list Compartment;
  Branch_coupling_conds_bwd : list F;
  Branch_coupling_conds_fwd : list F;
  Branch_summed_coupling_conds : list F
}.

(** A constructed [Cell]. The fields up to [initialized_conds] are the
    attributes [__init__] assigns, [params] is the dict the initialisers
    of the base class build, and the remaining ones are the attributes
    only [init_morph] and [init_branch_conds] assign. *)
Record Cell : Type := mkCell {
  branches : list Branch;
  nseg : nat;
  nbranches : nat;
  parents : list Z;
  nodes : DataFrame;
  coupling_conds_bwd : list (list F);
  coupling_conds_fwd : list (list F);
  summed_coupling_conds : list (list F);
  initialized_morph : bool;
  initialized_conds : bool;
  params : gmap string (list F);
  num_kids : slot (list Z);
  levels : slot (list Z);
  branches_in_each_level : slot (list (list Z));
  parents_in_each_level : slot (list (list Z));
  kid_inds_in_each_level : slot (list (list Z));
  branch_conds_bwd : slot (list F);
  branch_conds_fwd : slot (list F)
}.

(** What [super().__init__()], [_init_params_and_state] and
    [_append_to_params_and_state] (class [Module], not in this file) leave
    on the instance for the attributes [__init__] does not assign. *)
Record ModuleAttrs : Type := mkModuleAttrs {
  base_params : gmap string (list F);
  base_num_kids : slot (list Z);
  base_levels : slot (list Z);
  base_branches_in_each_level : slot (list (list Z));
  base_parents_in_each_level : slot (list (list Z));
  base_kid_inds_in_each_level : slot (list (list Z));
  base_branch_conds_bwd : slot (list F);
  base_branch_conds_fwd : slot (list F)
}.

(** Attribute assignments [self.x = v]. *)
Definition set_summed_coupling_conds (v : list (list F)) (self : Cell) : Cell :=
  let 'mkCell a b c d e f g _ i j k l m n o p q r := self in
  mkCell a b c d e f g v i j k l m n o p q r.
Definition set_initialized_morph (v : bool) (self : Cell) : Cell :=
  let 'mkCell a b c d e f g h _ j k l m n o p q r := self in
  mkCell a b c d e f g h v j k l m n o p q r.
Definition set_initialized_conds (v : bool) (self : Cell) : Cell :=
  let 'mkCell a b c d e f g h i _ k l m n o p q r := self in
  mkCell a b c d e f g h i v k l m n o p q r.
Definition set_num_kids (v : list Z) (self : Cell) : Cell :=
  let 'mkCell a b c d e f g h i j k _ m n o p q r := self in
  mkCell a b c d e f g h i j k (Val v) m n o p q r.
Definition set_levels (v : list Z) (self : Cell) : Cell :=
  let 'mkCell a b c d e f g h i j k l _ n o p q r := self in
  mkCell a b c d e f g h i j k l (Val v) n o p q r.
Definition set_branches_in_each_level (v : list (list Z)) (self : Cell) : Cell :=
  let 'mkCell a b c d e f g h i j k l m _ o p q r := self in
  mkCell a b c d e f g h i j k l m (Val v) o p q r.
Definition set_parents_in_each_level (v : list (list Z)) (self : Cell) : Cell :=
  let 'mkCell a b c d e f g h i j k l m n _ p q r := self in
  mkCell a b c d e f g h i j k l m n (Val v) p q r.
Definition set_kid_inds_in_each_level (v : list (list Z)) (self : Cell) : Cell :=
  let 'mkCell a b c d e f g h i j k l m n o _ q r := self in
  mkCell a b c d e f g h i j k l m n o (Val v) q r.
Definition set_branch_conds_bwd (v : list F) (self : Cell) : Cell :=
  let 'mkCell a b c d e f g h i j k l m n o p _ r := self in
  mkCell a b c d e f g h i j k l m n o p (Val v) r.
Definition set_branch_conds_fwd (v : list F) (self : Cell) : Cell :=
  let 'mkCell a b c d e f g h i j k l m n o p q _ := self in
  mkCell a b c d e f g h i j k l m n o p q (Val v).

(** ** Methods: state and exceptions

    A method runs on the instance and either returns a value or raises,
    and in both cases leaves the instance as mutated so far. *)
Inductive outcome (A : Type) : Type :=
  | Returned (a : A) (self : Cell)
  | Raised (e : exn) (self : Cell).
Arguments Returned {A} a self.
Arguments Raised {A} e self.

Definition method (A : Type) : Type := Cell -> outcome A.

Definition method_ret {A : Type} (a : A) : method A := fun self => Returned a self.
Definition method_bind {A B : Type} (m : method A) (k : A -> method B) : method B :=
  fun self =>
    match m self with
    | Returned a self' => k a self'
    | Raised e self' => Raised e self'
    end.
Notation "x <~ m ;; k" := (method_bind m (fun x => k))
  (at level 100, m at next level, right associativity).
Notation "m ;;; k" := (method_bind m (fun _ => k))
  (at level 100, right associativity).

(** A computation that does not touch the instance. *)
Definition lift {A : Type} (r : result A) : method A :=
  fun self => match r with Ok a => Returned a self | Raise e => Raised e self end.
(** [self.x] for an attribute [__init__] has assigned. *)
Definition attr {A : Type} (f : Cell -> A) : method A :=
  fun self => Returned (f self) self.
(** [self.x = v] *)
Definition assign (upd : Cell -> Cell) : method unit :=
  fun self => Returned tt (upd self).

(** ** [__init__] (cell.py, lines 22-48) *)

Definition Cell__init__ (base : ModuleAttrs) (branches : list Branch) (parents : list Z)
  : result Cell :=
  b0 ← (match branches !! 0 with Some b => Ok b | None => Raise IndexError end);
  let nseg := Branch_nseg b0 in
  let nbranches := length branches in
  let comp := arange 0 (Z.of_nat (nseg * nbranches)) in
  let nodes :=
    {| comp_index := comp;
       branch_index := (fun i => (i `div` Z.of_nat nseg)%Z) <$> comp;
       cell_index := replicate (nseg * nbranches) 0%Z |} in
  bwd ← jnp_asarray2 (Branch_coupling_conds_bwd <$> branches);
  fwd ← jnp_asarray2 (Branch_coupling_conds_fwd <$> branches);
  summed ← jnp_asarray2 (Branch_summed_coupling_conds <$> branches);
  Ok {| branches := branches;
        nseg := nseg;
        nbranches := nbranches;
        parents := parents;
        nodes := nodes;
        coupling_conds_bwd := bwd;
        coupling_conds_fwd := fwd;
        summed_coupling_conds := summed;
        initialized_morph := false;
        initialized_conds := false;
        params := base_params base;
        num_kids := base_num_kids base;
        levels := base_levels base;
        branches_in_each_level := base_branches_in_each_level base;
        parents_in_each_level := base_parents_in_each_level base;
        kid_inds_in_each_level := base_kid_inds_in_each_level base;
        branch_conds_bwd := base_branch_conds_bwd base;
        branch_conds_fwd := base_branch_conds_fwd base |}.

(** ** Attribute lookup and [__getattr__] (cell.py, lines 50-52) *)

Inductive attr_value : Type :=
  | ABranches (v : list Branch)
  | ANat (v : nat)
  | ABool (v : bool)
  | AIntArray (v : list Z)
  | AIntArrays (v : list (list Z))
  | AArray (v : list F)
  | AArray2 (v : list (list F))
  | ADict (v : gmap string (list F))
  | AFrame (v : DataFrame)
  | ANone
  | AClassAttr (name : string)
  | AInherited (name : string)
  | ABranchView (pointer : Cell) (view : DataFrame).

Definition slot_entry {A : Type} (key : string) (inj : A -> attr_value) (s : slot A)
  : list (string * attr_value) :=
  match s with
  | Unset => []
  | PyNone => [(key, ANone)]
  | Val a => [(key, inj a)]
  end.

(** The instance's [__dict__]. *)
Definition instance_dict (self : Cell) : list (string * attr_value) :=
  [ ("branches", ABranches (branches self));
    ("nseg", ANat (nseg self));
    ("nbranches", ANat (nbranches self));
    ("parents", AIntArray (parents self));
    ("nodes", AFrame (nodes self));
    ("coupling_conds_bwd", AArray2 (coupling_conds_bwd self));
    ("coupling_conds_fwd", AArray2 (coupling_conds_fwd self));
    ("summed_coupling_conds", AArray2 (summed_coupling_conds self));
    ("initialized_morph", ABool (initialized_morph self));
    ("initialized_conds", ABool (initialized_conds self));
    ("params", ADict (params self)) ]
  ++ slot_entry "num_kids" AIntArray (num_kids self)
  ++ slot_entry "levels" AIntArray (levels self)
  ++ slot_entry "branches_in_each_level" AIntArrays (branches_in_each_level self)
  ++ slot_entry "parents_in_each_level" AIntArrays (parents_in_each_level self)
  ++ slot_entry "kid_inds_in_each_level" AIntArrays (kid_inds_in_each_level self)
  ++ slot_entry "branch_conds_bwd" AArray (branch_conds_bwd self)
  ++ slot_entry "branch_conds_fwd" AArray (branch_conds_fwd self).

Fixpoint assoc (key : string) (d : list (string * attr_value)) : option attr_value :=
  match d with
  | [] => None
  | (k, v) :: d' => if decide (k = key) then Some v else assoc key d'
  end.

(** The names the body of [class Cell] binds. *)
Definition Cell_class : list string :=
  ["cell_params"; "cell_states"; "__init__"; "__getattr__"; "init_morph";
   "init_branch_conds"; "step"].

(** The names that resolve through the base class [Module] (not in this
    file) and through [object]. *)
Variable Module_names : list string.

Definition Cell__getattr__ (self : Cell) (key : string) : result attr_value :=
  if decide (key = "branch") then Ok (ABranchView self (nodes self))
  else Raise AssertionError.

(** [self.key]: the instance, then the classes, then [__getattr__]. *)
Definition getattr (self : Cell) (key : string) : result attr_value :=
  match assoc key (instance_dict self) with
  | Some v => Ok v
  | None =>
      if decide (key ∈ Cell_class) then Ok (AClassAttr key)
      else if decide (key ∈ Module_names) then Ok (AInherited key)
      else Cell__getattr__ self key
  end.

(** [self.key] for one of the attributes [__init__] leaves unassigned: the
    value or [None] when it is bound, [__getattr__] otherwise. *)
Definition read_slot {A : Type} (key : string) (f : Cell -> slot A) : method (option A) :=
  fun self =>
    match f self with
    | Val a => Returned (Some a) self
    | PyNone => Returned None self
    | Unset =>
        match Cell__getattr__ self key with
        | Raise e => Raised e self
        | Ok _ => Raised TypeError self
        end
    end.

(** ** [init_morph] (cell.py, lines 54-70)

    The other helpers of [neurax.cell] are parameters of the module. *)
Variable _compute_num_kids : list Z -> result (list Z).
Variable compute_branches_in_level : list Z -> result (list (list Z)).
Variable _compute_index_of_kid : list Z -> result (list Z).
Variable cum_indizes_of_kids : list (list Z) -> Z -> list Z -> result (list (list Z)).

Definition init_morph : method unit :=
  parents_ <~ attr parents;;
  num_kids_ <~ lift (_compute_num_kids parents_);;
  assign (set_num_kids num_kids_);;;
  let levels_ := compute_levels parents_ in
  assign (set_levels levels_);;;
  bil <~ lift (compute_branches_in_level levels_);;
  assign (set_branches_in_each_level bil);;;
  pil <~ lift (traverse (fun c => jnp_unique <$> gather parents_ c) bil);;
  assign (set_parents_in_each_level pil);;;
  ind_of_kids <~ lift (_compute_index_of_kid parents_);;
  ind_of_kids_in_each_level <~ lift (traverse (gather ind_of_kids) bil);;
  kid_inds <~ lift (cum_indizes_of_kids ind_of_kids_in_each_level 4 [0%Z]);;
  assign (set_kid_inds_in_each_level kid_inds);;;
  assign (set_initialized_morph true).

(** ** [init_branch_conds] (cell.py, lines 72-119) *)

(** [xs *= k] for a Python int [k] *)
Definition imul_int (xs : list F) (k : Z) : list F :=
  (fun x => (x ⊗ of_int k)%py) <$> xs.

(** Lines 74-99: the junction conductances [(branch_conds_bwd,
    branch_conds_fwd)] in S / cm / um, one entry per non-root branch. *)
Definition junction_conds (self : Cell) : result (list F * list F) :=
  let nbranches := nbranches self in
  let nseg := nseg self in
  ar ← dict_get (params self) "axial_resistivity";
  axial_resistivity ← jnp_reshape ar nbranches nseg;
  rd ← dict_get (params self) "radius";
  radiuses ← jnp_reshape rd nbranches nseg;
  ln ← dict_get (params self) "length";
  lengths ← jnp_reshape ln nbranches nseg;
  let kids := arange 1 (Z.of_nat nbranches) in
  rad1 ← gather2 radiuses kids (-1);
  pars ← gather (parents self) kids;
  rad2 ← gather2 radiuses pars 0;
  l1 ← gather2 lengths kids (-1);
  l2 ← gather2 lengths pars 0;
  r_a1 ← gather2 axial_resistivity kids (-1);
  r_a2 ← gather2 axial_resistivity pars 0;
  let branch_conds_bwd := compute_coupling_cond rad2 rad1 r_a1 l2 l1 in
  let branch_conds_fwd := compute_coupling_cond rad1 rad2 r_a2 l1 l2 in
  Ok (branch_conds_bwd, branch_conds_fwd).

(** Lines 106-111: the body of the loop, for one [b]. *)
Definition add_junction (parents : list Z) (fwd bwd : list F)
    (summed : list (list F)) (b : Z) : result (list (list F)) :=
  f ← jnp_get fwd (b - 1);
  let summed := at_add summed b (-1) f in
  p ← jnp_get parents b;
  g ← jnp_get bwd (b - 1);
  Ok (at_add summed p 0 g).

Definition init_branch_conds : method unit :=
  conds <~ attr junction_conds;;
  conds <~ lift conds;;
  let '(bwd, fwd) := conds in
  assign (set_branch_conds_bwd bwd);;;
  assign (set_branch_conds_fwd fwd);;;
  (* Convert (S / cm / um) -> (mS / cm^2) *)
  let fwd := imul_int fwd (10 ^ 7) in
  assign (set_branch_conds_fwd fwd);;;
  let bwd := imul_int bwd (10 ^ 7) in
  assign (set_branch_conds_bwd bwd);;;
  summed <~ attr summed_coupling_conds;;
  parents_ <~ attr parents;;
  nbranches_ <~ attr nbranches;;
  summed <~ lift (foldM (add_junction parents_ fwd bwd)
                        (arange 1 (Z.of_nat nbranches_)) summed);;
  assign (set_summed_coupling_conds summed);;;
  assign (set_branch_conds_fwd (zero :: fwd));;;
  assign (set_branch_conds_bwd (zero :: bwd));;;
  assign (set_initialized_conds true).

(** ** [step] (cell.py, lines 121-176) *)

(** The keyword arguments of [step_voltages]. An attribute that may hold
    [None] is passed on as it is. *)
Record SolverArgs : Type := mkSolverArgs {
  arg_voltages : list (list F);
  arg_voltage_terms : list (list F);
  arg_constant_terms : list (list F);
  arg_coupling_conds_bwd : list (list F);
  arg_coupling_conds_fwd : list (list F);
  arg_summed_coupling_conds : list (list F);
  arg_branch_cond_fwd : option (list F);
  arg_branch_cond_bwd : option (list F);
  arg_num_branches : nat;
  arg_parents : list Z;
  arg_kid_inds_in_each_level : option (list (list Z));
  arg_max_num_kids : Z;
  arg_parents_in_each_level : option (list (list Z));
  arg_branches_in_each_level : option (list (list Z));
  arg_tridiag_solver : string;
  arg_delta_t : F
}.

(** The collaborators: [Module.step_channels], [Module.step_voltages] and
    [neurax.stimulus.get_external_input]. *)
Variable step_channels :
  gmap string (list F) -> F -> Channels -> gmap string (list F) ->
  result (list (gmap string (list F)) * (list F * list F)).
Variable get_external_input :
  list F -> list Z -> list F -> list F -> list F -> result (list F).
Variable step_voltages : SolverArgs -> result (list (list F)).

(** [l[0]] on a Python list *)
Definition first {A : Type} (l : list A) : result A :=
  match l !! 0 with
  | Some x => Ok x
  | None => Raise IndexError
  end.

Definition step (u : gmap string (list F)) (dt : F) (i_inds : list Z)
    (i_current : list F) : method (gmap string (list F)) :=
  nbranches_ <~ attr nbranches;;
  nseg_per_branch <~ attr nseg;;
  fwd <~ read_slot "branch_conds_fwd" branch_conds_fwd;;
  (match fwd with
   | None => init_branch_conds
   | Some _ => method_ret tt
   end);;;
  voltages <~ lift (dict_get u "voltages");;
  branches_ <~ attr branches;;
  params_ <~ attr params;;
  stepped <~ lift (b0 ← first branches_;
                   c0 ← first (Branch_compartments b0);
                   step_channels u dt (channels c0) params_);;
  let '(new_channel_states, (v_terms, const_terms)) := stepped in
  i_ext <~ lift (radius ← dict_get params_ "radius";
                 length ← dict_get params_ "length";
                 get_external_input voltages i_inds i_current radius length);;
  voltages2 <~ lift (jnp_reshape voltages nbranches_ nseg_per_branch);;
  v_terms2 <~ lift (jnp_reshape v_terms nbranches_ nseg_per_branch);;
  const_terms2 <~ lift (jnp_reshape const_terms nbranches_ nseg_per_branch);;
  i_ext2 <~ lift (jnp_reshape i_ext nbranches_ nseg_per_branch);;
  bwd_ <~ attr coupling_conds_bwd;;
  fwd_ <~ attr coupling_conds_fwd;;
  summed_ <~ attr summed_coupling_conds;;
  branch_fwd <~ read_slot "branch_conds_fwd" branch_conds_fwd;;
  branch_bwd <~ read_slot "branch_conds_bwd" branch_conds_bwd;;
  num_branches <~ attr nbranches;;
  parents_ <~ attr parents;;
  kid_inds <~ read_slot "kid_inds_in_each_level" kid_inds_in_each_level;;
  pil <~ read_slot "parents_in_each_level" parents_in_each_level;;
  bil <~ read_slot "branches_in_each_level" branches_in_each_level;;
  new_voltages <~ lift (step_voltages
    {| arg_voltages := voltages2;
       arg_voltage_terms := v_terms2;
       arg_constant_terms := (const_terms2 ⊕ i_ext2)%py;
       arg_coupling_conds_bwd := bwd_;
       arg_coupling_conds_fwd := fwd_;
       arg_summed_coupling_conds := summed_;
       arg_branch_cond_fwd := branch_fwd;
       arg_branch_cond_bwd := branch_bwd;
       arg_num_branches := num_branches;
       arg_parents := parents_;
       arg_kid_inds_in_each_level := kid_inds;
       arg_max_num_kids := 4;
       arg_parents_in_each_level := pil;
       arg_branches_in_each_level := bil;
       arg_tridiag_solver := "thomas";
       arg_delta_t := dt |});;
  final_state <~ lift (first new_channel_states);;
  method_ret (<["voltages" := flatten new_voltages]> final_state).

(** ** Vocabulary of the statements *)

(** The parameters of one compartment. *)
Record Geometry : Type := mkGeometry {
  radius : F;
  len : F;
  resistivity : F
}.

(** Compartment [c] of branch [b]: entry [b * nseg + c] of the flat
    parameter arrays. *)
Definition compartment (self : Cell) (b c : nat) : option Geometry :=
  if decide (c < nseg self) then
    let k := b * nseg self + c in
    rd ← params self !! "radius";
    ln ← params self !! "length";
    ar ← params self !! "axial_resistivity";
    rad ← rd !! k;
    l ← ln !! k;
    r ← ar !! k;
    Some (mkGeometry rad l r)
  else None.

(** The formula of the source, on the geometry of [a] and [b] and a
    resistivity [r]. *)
Definition coupling (a b : Geometry) (r : F) : F :=
  compute_coupling_cond (radius a) (radius b) r (len a) (len b).

(** The formula as the specification words it:
    g(a->b) = radius_a * radius_b^2 / r_a
              / (radius_b^2 * length_a + radius_a^2 * length_b) / length_a,
    with r_a the axial resistivity of compartment a. *)
Definition g_spec (a b : Geometry) : F :=
  (radius a ⊗ radius b ^^ 2 ⊘ resistivity a
     ⊘ (radius b ^^ 2 ⊗ len a ⊕ radius a ^^ 2 ⊗ len b) ⊘ len a)%py.

(** S / cm / um -> mS / cm^2 *)
Definition to_mS_per_cm2 (g : F) : F := (g ⊗ of_int 10000000)%py.

(** Every non-root branch names a branch as its parent. *)
Definition parents_in_range (self : Cell) : Prop :=
  length (parents self) = nbranches self /\
  Forall (fun p => (0 <= p < Z.of_nat (nbranches self))%Z) (drop 1 (parents self)).

(** The value an attribute holds, when it holds one. *)
Definition holds {A : Type} (s : slot A) (a : A) : Prop := s = Val a.

(** Entry [(r, c)] of a two-dimensional array. *)
Definition entry (m : list (list F)) (r c : nat) : option F :=
  row ← m !! r; row !! c.

(** What iteration [b] of the loop of [init_branch_conds] adds to entry
    [(r, c)]: the forward conductance of [b] if the entry is the last
    compartment of [b], then the backward conductance of [b] if the entry
    is the first compartment of the parent of [b]. *)
Definition junction_terms_of (self : Cell) (fwd bwd : list F) (r c : nat) (b : nat)
  : list F :=
  (if decide (b = r /\ S c = nseg self) then option_list (fwd !! b) else [])
  ++ (if decide (parents self !! b = Some (Z.of_nat r) /\ c = 0)
      then option_list (bwd !! b) else []).

(** All that the loop adds to entry [(r, c)], in the order of the loop. *)
Definition junction_terms (self : Cell) (fwd bwd : list F) (r c : nat) : list F :=
  flat_map (junction_terms_of self fwd bwd r c) (seq 1 (nbranches self - 1)).

(** The backward conductances of the children of [r], in branch order. *)
Definition children_bwd (self : Cell) (bwd : list F) (r : nat) : list F :=
  flat_map
    (fun b =>
       if decide (parents self !! b = Some (Z.of_nat r))
       then option_list (bwd !! b) else [])
    (seq 1 (nbranches self - 1)).

(** The instance once [init_branch_conds] has returned. *)
Definition conds_assembled (self : Cell) (bwd fwd : list F) (summed : list (list F))
  : Cell :=
  {| branches := branches self;
     nseg := nseg self;
     nbranches := nbranches self;
     parents := parents self;
     nodes := nodes self;
     coupling_conds_bwd := coupling_conds_bwd self;
     coupling_conds_fwd := coupling_conds_fwd self;
     summed_coupling_conds := summed;
     initialized_morph := initialized_morph self;
     initialized_conds := true;
     params := params self;
     num_kids := num_kids self;
     levels := levels self;
     branches_in_each_level := branches_in_each_level self;
     parents_in_each_level := parents_in_each_level self;
     kid_inds_in_each_level := kid_inds_in_each_level self;
     branch_conds_bwd := Val bwd;
     branch_conds_fwd := Val fwd |}.

(** The instance once [init_morph] has returned. *)
Definition morph_indexed (self : Cell) (nk lv : list Z) (bil pil kid : list (list Z))
  : Cell :=
  {| branches := branches self;
     nseg := nseg self;
     nbranches := nbranches self;
     parents := parents self;
     nodes := nodes self;
     coupling_conds_bwd := coupling_conds_bwd self;
     coupling_conds_fwd := coupling_conds_fwd self;
     summed_coupling_conds := summed_coupling_conds self;
     initialized_morph := true;
     initialized_conds := initialized_conds self;
     params := params self;
     num_kids := Val nk;
     levels := Val lv;
     branches_in_each_level := Val bil;
     parents_in_each_level := Val pil;
     kid_inds_in_each_level := Val kid;
     branch_conds_bwd := branch_conds_bwd self;
     branch_conds_fwd := branch_conds_fwd self |}.

(** The helper calls of [init_morph], all successful. *)
Definition morph_helpers (self : Cell) (nk : list Z) (bil pil kid : list (list Z))
  : Prop :=
  _compute_num_kids (parents self) = Ok nk /\
  compute_branches_in_level (compute_levels (parents self)) = Ok bil /\
  traverse (fun c => jnp_unique <$> gather (parents self) c) bil = Ok pil /\
  exists iok ioks,
    _compute_index_of_kid (parents self) = Ok iok /\
    traverse (gather iok) bil = Ok ioks /\
    cum_indizes_of_kids ioks 4 [0%Z] = Ok kid.

(** *** The claims of the specification that the code does not meet, as
    they are worded *)

(** "Every junction conductance is this formula evaluated with the
    resistivity of its source compartment a", whichever of the two
    compartments of the junction is taken as a, converted or not. *)
Definition source_resistivity (self self' : Cell) : Prop :=
  forall (i p : nat) (child par : Geometry) (conds : list F) (v : F),
    1 <= i < nbranches self ->
    parents self !! i = Some (Z.of_nat p) ->
    compartment self i (nseg self - 1) = Some child ->
    compartment self p 0 = Some par ->
    holds (branch_conds_bwd self') conds \/ holds (branch_conds_fwd self') conds ->
    conds !! i = Some v ->
    v = g_spec child par \/ v = g_spec par child \/
    v = to_mS_per_cm2 (g_spec child par) \/ v = to_mS_per_cm2 (g_spec par child).

(** "branch_conds_bwd[i] is the formula with a = the last compartment of
    branch i and b = the first compartment of parents[i], and
    branch_conds_fwd[i] with a and b exchanged." *)
Definition bwd_child_to_parent (self self' : Cell) : Prop :=
  forall (i p : nat) (child par : Geometry),
    1 <= i < nbranches self ->
    parents self !! i = Some (Z.of_nat p) ->
    compartment self i (nseg self - 1) = Some child ->
    compartment self p 0 = Some par ->
    exists bwd fwd,
      holds (branch_conds_bwd self') bwd /\ holds (branch_conds_fwd self') fwd /\
      bwd !! i = Some (to_mS_per_cm2 (g_spec child par)) /\
      fwd !! i = Some (to_mS_per_cm2 (g_spec par child)).

(** "Entry [b, nseg-1] has been increased by exactly branch b's own
    forward conductance, entry [p, 0] by exactly the sum of the backward
    conductances of p's children, and all other entries are unchanged." *)
Definition separate_increments (self self' : Cell) : Prop :=
  forall (fwd bwd : list F),
    holds (branch_conds_fwd self') fwd ->
    holds (branch_conds_bwd self') bwd ->
    (forall b x f, 1 <= b < nbranches self ->
       entry (summed_coupling_conds self) b (nseg self - 1) = Some x ->
       fwd !! b = Some f ->
       entry (summed_coupling_conds self') b (nseg self - 1) = Some (x ⊕ f)%py) /\
    (forall p x, p < nbranches self ->
       entry (summed_coupling_conds self) p 0 = Some x ->
       entry (summed_coupling_conds self') p 0
       = Some (x ⊕ foldl add zero (children_bwd self bwd p))%py) /\
    (forall r c x, ~ (1 <= r /\ S c = nseg self) -> c <> 0 ->
       entry (summed_coupling_conds self) r c = Some x ->
       entry (summed_coupling_conds self') r c = Some x).

(** "Calling the same method a second time is a no-op." *)
Definition second_call_is_noop (m : method unit) (self : Cell) : Prop :=
  forall self1, m self = Returned tt self1 -> m self1 = Returned tt self1.

(** "For any attribute name that is not set on the instance, accessing it
    raises an assertion failure unless the name is exactly branch, in
    which case a BranchView over the node table is returned." *)
Definition unset_attribute_asserts (self : Cell) : Prop :=
  forall key, assoc key (instance_dict self) = None ->
    getattr self key =
      if decide (key = "branch") then Ok (ABranchView self (nodes self))
      else Raise AssertionError.

(** The instance a call leaves behind, whether it returned or raised. *)
Definition instance_after {A : Type} (o : outcome A) : Cell :=
  match o with
  | Returned _ self' => self'
  | Raised _ self' => self'
  end.

End CellModule.

Arguments Returned {F Channels A} a self.
Arguments Raised {F Channels A} e self.

(** ** Validity of a [parents] array *)

(** The parent of branch [i], when it has one. *)
Definition parent_of (parents : list Z) (i : nat) : option nat :=
  p ← parents !! i; if decide (0 <= p)%Z then Some (Z.to_nat p) else None.

(** The [k]-th ancestor of branch [i], when the walk stays inside the tree. *)
Fixpoint ancestor (parents : list Z) (k : nat) (i : nat) : option nat :=
  match k with
  | O => Some i
  | S k' => parent_of parents i ≫= ancestor parents k'
  end.

(** No branch is its own ancestor. A cycle through a branch has at most
    [length parents] branches, so walks of that length decide it. *)
Definition cycle_free (parents : list Z) : Prop :=
  Forall (fun i =>
            Forall (fun k => ancestor parents k i <> Some i)
                   (seq 1 (length parents)))
         (seq 0 (length parents)).

(** Length [nbranches], branch 0 unparented with value -1, all other values
    in range, cycle-free. *)
Definition valid_parents (parents : list Z) (nbranches : nat) : Prop :=
  length parents = nbranches /\
  parents !! 0 = Some (-1)%Z /\
  Forall (fun p => (0 <= p < Z.of_nat nbranches)%Z) (drop 1 parents) /\
  cycle_free parents.

(** ** Exact rational arithmetic, for the concrete evaluations *)

Global Instance Q_arith : Arith Q := {
  add := fun x y => Qred (Qplus x y);
  mul := fun x y => Qred (Qmult x y);
  div := fun x y => Qred (Qdiv x y);
  pow := fun x n => Qred (Qpower x n)
}.

Global Instance Q_scalar : Scalar Q := {
  zero := 0%Q;
  of_int := inject_Z
}.

Module Examples.

Definition params_of (axial_resistivity radius length : list Q) : gmap string (list Q) :=
  <["axial_resistivity" := axial_resistivity]>
    (<["radius" := radius]> (<["length" := length]> ∅)).

(** An instance on which the base class has bound none of the attributes
    that [__init__] leaves alone. *)
Definition fresh (params : gmap string (list Q)) : @ModuleAttrs Q :=
  mkModuleAttrs params Unset Unset Unset Unset Unset Unset Unset.

(** A branch of [n] compartments with no conductance summed yet. *)
Definition branch (n : nat) : @Branch Q unit :=
  mkBranch n (replicate n (mkCompartment tt)) (replicate (n - 1) 0%Q)
           (replicate (n - 1) 0%Q) (replicate n 0%Q).

Definition build (base : @ModuleAttrs Q) (branches : list (@Branch Q unit))
    (parents : list Z) : @Cell Q unit :=
  match Cell__init__ base branches parents with
  | Ok c => c
  | Raise _ => mkCell [] 0 0 [] (mkDataFrame [] [] []) [] [] [] false false ∅
                      Unset Unset Unset Unset Unset Unset Unset
  end.

(** Root and one child, one compartment each. The root compartment has
    radius 2, length 4 and resistivity 2; the child's has 1, 1 and 1. *)
Definition two_branches : @Cell Q unit :=
  build (fresh (params_of [2; 1] [2; 1] [4; 1])%Q) [branch 1; branch 1] [-1; 0]%Z.

(** The same geometry under one resistivity. *)
Definition two_branches_uniform : @Cell Q unit :=
  build (fresh (params_of [1; 1] [2; 1] [4; 1])%Q) [branch 1; branch 1] [-1; 0]%Z.

(** A chain of three branches of one compartment each, all alike. *)
Definition chain : @Cell Q unit :=
  build (fresh (params_of [1; 1; 1] [1; 1; 1] [1; 1; 1])%Q)
        [branch 1; branch 1; branch 1] [-1; 0; 1]%Z.

(** A root with two children, two compartments per branch, all alike. *)
Definition fork : @Cell Q unit :=
  build (fresh (params_of [1; 1; 1; 1; 1; 1] [1; 1; 1; 1; 1; 1] [1; 1; 1; 1; 1; 1])%Q)
        [branch 2; branch 2; branch 2] [-1; 0; 0]%Z.

(** A root whose child, branch 2, is listed after its grandchild,
    branch 1. *)
Definition unordered : @Cell Q unit :=
  build (fresh (params_of [1; 1; 1] [1; 1; 1] [1; 1; 1])%Q)
        [branch 1; branch 1; branch 1] [-1; 2; 0]%Z.

(** Names of [Module] that the source itself uses. *)
Definition module_names : list string :=
  ["_init_params_and_state"; "_append_to_params_and_state"; "params";
   "step_channels"; "step_voltages"].

(** The instance a method leaves behind. *)
Definition after {A : Type} (o : @outcome Q unit A) : @Cell Q unit :=
  match o with
  | Returned _ self => self
  | Raised _ self => self
  end.

(** Instances of the parameters of [init_morph] and [step] to run the
    examples with; the theorems hold for any. *)
Definition num_kids_of (parents : list Z) : result (list Z) :=
  Ok ((fun i => Z.of_nat (length (filter (fun p => p = Z.of_nat i) parents)))
        <$> seq 0 (length parents)).
Definition one_level (levels : list Z) : result (list (list Z)) :=
  Ok [seqZ 0 (Z.of_nat (length levels))].
Definition index_of_kid (parents : list Z) : result (list Z) :=
  Ok (replicate (length parents) 0%Z).
Definition kid_table (inds : list (list Z)) (max_num_kids : Z) (reset_at : list Z)
  : result (list (list Z)) := Ok inds.
Definition no_channels (u : gmap string (list Q)) (dt : Q) (c : unit)
    (params : gmap string (list Q))
  : result (list (gmap string (list Q)) * (list Q * list Q)) :=
  v ← dict_get u "voltages";
  Ok ([u], (replicate (length v) 0%Q, replicate (length v) 0%Q)).
Definition no_input (v : list Q) (i_inds : list Z) (i_current radius length : list Q)
  : result (list Q) := Ok (replicate (List.length v) 0%Q).
Definition hold_voltages (args : @SolverArgs Q) : result (list (list Q)) :=
  Ok (arg_voltages args).


(** Branch 2 is marked unparented, like the root. Branch 2 is also the last
    branch; its compartment has radius 2 and length 4. *)
Definition second_root : @Cell Q unit :=
  build (fresh (params_of [1; 1; 1] [1; 1; 2] [1; 1; 4])%Q)
        [branch 1; branch 1; branch 1] [-1; -1; 0]%Z.

(** [fork] without the radii. *)
Definition fork_without_radius : @Cell Q unit :=
  build (fresh (<["axial_resistivity" := [1; 1; 1; 1; 1; 1]%Q]>
                  (<["length" := [1; 1; 1; 1; 1; 1]%Q]> ∅)))
        [branch 2; branch 2; branch 2] [-1; 0; 0]%Z.

(** [fork] after [init_branch_conds] and [init_morph]. *)
Definition fork_ready : @Cell Q unit :=
  after (init_morph num_kids_of one_level index_of_kid kid_table
                    (after (init_branch_conds fork))).

(** [fork] built on a base class that binds [branch_conds_fwd] to [None],
    after [init_morph]. *)
Definition fork_lazy : @Cell Q unit :=
  after (init_morph num_kids_of one_level index_of_kid kid_table
           (build (mkModuleAttrs
                     (params_of [1; 1; 1; 1; 1; 1] [1; 1; 1; 1; 1; 1] [1; 1; 1; 1; 1; 1])%Q
                     Unset Unset Unset Unset Unset Unset PyNone)
                  [branch 2; branch 2; branch 2] [-1; 0; 0]%Z)).

(** [fork_without_radius] built on a base class that binds
    [branch_conds_fwd] to [None]. *)
Definition fork_lazy_without_radius : @Cell Q unit :=
  build (mkModuleAttrs (<["axial_resistivity" := [1; 1; 1; 1; 1; 1]%Q]>
                          (<["length" := [1; 1; 1; 1; 1; 1]%Q]> ∅))
                       Unset Unset Unset Unset Unset Unset PyNone)
        [branch 2; branch 2; branch 2] [-1; 0; 0]%Z.


(** A state vector for [fork]. *)
Definition fork_state : gmap string (list Q) :=
  <["voltages" := [1; 2; 3; 4; 5; 6]%Q]> (<["m" := [0; 0; 0; 0; 0; 0]%Q]> ∅).

End Examples.

(** * Properties *)

(** ** The error monad and the array operations *)

Lemma bind_Ok {A B : Type} (m : result A) (k : A -> result B) (b : B) :
  m ≫= k = Ok b -> exists a, m = Ok a /\ k a = Ok b.
Proof. destruct m as [e|a]; simpl; [discriminate|]. intros Hk. by exists a. Qed.

(** Peel the binds off a successful computation in the error monad. *)
Ltac ok_inv H :=
  repeat match type of H with
         | (_ ≫= _) = Ok _ =>
             let a := fresh "a" in
             let Ha := fresh "Ha" in
             apply bind_Ok in H as (a & Ha & H)
         | Ok _ = Ok _ => injection H as H
         end.

Lemma traverse_Ok {A B : Type} (f : A -> result B) (l : list A) (ys : list B) :
  traverse f l = Ok ys <-> Forall2 (fun x y => f x = Ok y) l ys.
Proof.
  revert ys. induction l as [|x l IH]; intros ys; simpl.
  - split.
    + intros [= <-]. constructor.
    + intros Hl. apply Forall2_nil_inv_l in Hl. by subst.
  - split.
    + intros Hb. ok_inv Hb. subst ys. constructor; [done|]. by apply IH.
    + intros Hl. apply Forall2_cons_inv_l in Hl as (y & ys' & Hy & Hys & ->).
      rewrite Hy. simpl. apply IH in Hys. rewrite Hys. done.
Qed.

Lemma traverse_lookup {A B : Type} (f : A -> result B) l ys k x :
  traverse f l = Ok ys -> l !! k = Some x ->
  exists y, ys !! k = Some y /\ f x = Ok y.
Proof.
  intros Ht Hk. apply traverse_Ok in Ht.
  destruct (Forall2_lookup_l _ _ _ _ _ Ht Hk) as (y & Hy & Hf). eauto.
Qed.

Lemma traverse_length {A B : Type} (f : A -> result B) l ys :
  traverse f l = Ok ys -> length ys = length l.
Proof. intros Ht. apply traverse_Ok in Ht. symmetry. eapply Forall2_length, Ht. Qed.

Lemma in_bounds_nat (n i : nat) : i < n -> in_bounds n (Z.of_nat i) = Some i.
Proof.
  intros Hi. unfold in_bounds, norm_index.
  destruct (Z.ltb_spec (Z.of_nat i) 0); [lia|].
  rewrite decide_True by lia. by rewrite Nat2Z.id.
Qed.

Lemma in_bounds_last (n : nat) : 0 < n -> in_bounds n (-1) = Some (n - 1).
Proof.
  intros Hn. unfold in_bounds, norm_index. simpl.
  rewrite decide_True by lia. f_equal. lia.
Qed.

Lemma jnp_get_nat {A : Type} (l : list A) (i : nat) (x : A) :
  l !! i = Some x -> jnp_get l (Z.of_nat i) = Ok x.
Proof.
  intros Hx. pose proof (lookup_lt_Some _ _ _ Hx) as Hi.
  unfold jnp_get, clip_index, norm_index.
  destruct (Z.ltb_spec (Z.of_nat i) 0); [lia|].
  replace (Z.to_nat _) with i by lia. by rewrite Hx.
Qed.

Lemma jnp_get_last {A : Type} (l : list A) (x : A) :
  l !! (length l - 1) = Some x -> jnp_get l (-1) = Ok x.
Proof.
  intros Hx. pose proof (lookup_lt_Some _ _ _ Hx) as Hi.
  unfold jnp_get, clip_index, norm_index. simpl.
  replace (Z.to_nat _) with (length l - 1) by lia. by rewrite Hx.
Qed.

Lemma jnp_get_nonempty {A : Type} (l : list A) (i : Z) (x : A) :
  jnp_get l i = Ok x -> 0 < length l.
Proof.
  unfold jnp_get. destruct (l !! _) eqn:Hl; [|discriminate].
  intros _. apply lookup_lt_Some in Hl. lia.
Qed.

Lemma arange_length (n : nat) : length (arange 1 (Z.of_nat n)) = n - 1.
Proof. unfold arange. rewrite length_seqZ. lia. Qed.

Lemma arange_lookup (n k : nat) :
  k < n - 1 -> arange 1 (Z.of_nat n) !! k = Some (Z.of_nat (S k)).
Proof.
  intros Hk. unfold arange. rewrite lookup_seqZ_lt by lia. f_equal. lia.
Qed.

Lemma arange_seq (n : nat) : arange 1 (Z.of_nat n) = Z.of_nat <$> seq 1 (n - 1).
Proof.
  apply list_eq. intros k. rewrite list_lookup_fmap.
  destruct (decide (k < n - 1)) as [Hk|Hk].
  - rewrite arange_lookup by done. rewrite lookup_seq_lt by done. done.
  - rewrite (lookup_ge_None_2 (arange _ _)) by (rewrite arange_length; lia).
    rewrite (lookup_ge_None_2 (seq _ _)) by (rewrite length_seq; lia). done.
Qed.

(** *** Reshaping *)

Lemma chunks_length {A : Type} (rows cols : nat) (l : list A) :
  length (chunks rows cols l) = rows.
Proof. revert l. induction rows as [|r IH]; intros l; simpl; [done|]. by rewrite IH. Qed.

Lemma chunks_shape {A : Type} (rows cols : nat) (l : list A) :
  length l = rows * cols -> has_shape (chunks rows cols l) rows cols.
Proof.
  intros Hl. split; [apply chunks_length|].
  revert l Hl. induction rows as [|r IH]; intros l Hl; simpl; constructor.
  - rewrite length_take. lia.
  - apply IH. rewrite length_drop. lia.
Qed.

Lemma concat_chunks {A : Type} (rows cols : nat) (l : list A) :
  length l = rows * cols -> concat (chunks rows cols l) = l.
Proof.
  revert l. induction rows as [|r IH]; intros l Hl; simpl.
  - destruct l; [done|simpl in Hl; lia].
  - rewrite IH by (rewrite length_drop; lia). apply take_drop.
Qed.

Lemma chunks_concat {A : Type} (rows cols : nat) (m : list (list A)) :
  has_shape m rows cols -> chunks rows cols (concat m) = m.
Proof.
  intros [Hlen Hrows]. revert rows Hlen.
  induction Hrows as [|row m Hrow Hm IH]; intros rows Hlen; simpl in *; subst rows; simpl.
  - done.
  - rewrite take_app_length' by done. rewrite drop_app_length' by done.
    f_equal. by apply IH.
Qed.

Lemma concat_shape_length {A : Type} (rows cols : nat) (m : list (list A)) :
  has_shape m rows cols -> length (concat m) = rows * cols.
Proof.
  intros [Hlen Hrows]. revert rows Hlen.
  induction Hrows as [|row m Hrow Hm IH]; intros rows Hlen; simpl in *; subst rows; simpl.
  - done.
  - rewrite length_app, (IH _ eq_refl). lia.
Qed.

Lemma chunks_lookup {A : Type} (rows cols : nat) (l : list A) (i : nat) :
  i < rows -> chunks rows cols l !! i = Some (take cols (drop (i * cols) l)).
Proof.
  revert l i. induction rows as [|r IH]; intros l i Hi; [lia|].
  destruct i as [|i]; simpl.
  - done.
  - rewrite IH by lia. rewrite drop_drop. do 2 f_equal.
Qed.

(** ** Conductance assembly *)

Section Assembly.
Context {F : Type} {SF : Scalar F} {Channels : Type}.
Local Abbreviation cell := (@Cell F Channels).
Implicit Types self : cell.

Lemma compute_coupling_cond_lookup (rad1 rad2 r_a l1 l2 : list F) k a b r c d :
  rad1 !! k = Some a -> rad2 !! k = Some b -> r_a !! k = Some r ->
  l1 !! k = Some c -> l2 !! k = Some d ->
  compute_coupling_cond rad1 rad2 r_a l1 l2 !! k
  = Some (compute_coupling_cond a b r c d).
Proof.
  intros Ha Hb Hr Hc Hd. unfold compute_coupling_cond. cbn.
  rewrite !lookup_zip_with, !list_lookup_fmap, Ha, Hb, Hr, Hc, Hd. done.
Qed.

Lemma compute_coupling_cond_length (rad1 rad2 r_a l1 l2 : list F) n :
  length rad1 = n -> length rad2 = n -> length r_a = n ->
  length l1 = n -> length l2 = n ->
  length (compute_coupling_cond rad1 rad2 r_a l1 l2) = n.
Proof.
  intros. unfold compute_coupling_cond. cbn.
  rewrite !length_zip_with, !length_fmap. lia.
Qed.

(** A row of a reshaped array is a slice of the flat one. *)
Lemma reshape_row {A : Type} (flat : list A) (m : list (list A)) rows cols i :
  jnp_reshape flat rows cols = Ok m -> i < rows ->
  jnp_get m (Z.of_nat i) = Ok (take cols (drop (i * cols) flat))
  /\ length (take cols (drop (i * cols) flat)) = cols.
Proof.
  unfold jnp_reshape. case_decide as Hl; [|discriminate]. intros [= <-] Hi. split.
  - apply jnp_get_nat. by apply chunks_lookup.
  - rewrite length_take, length_drop. nia.
Qed.

Lemma reshape_read_last {A : Type} (flat : list A) m rows cols i y :
  jnp_reshape flat rows cols = Ok m -> i < rows ->
  (jnp_get m (Z.of_nat i) ≫= fun row => jnp_get row (-1)) = Ok y ->
  0 < cols /\ flat !! (i * cols + (cols - 1)) = Some y.
Proof.
  intros Hm Hi Hy. destruct (reshape_row _ _ _ _ _ Hm Hi) as [Hrow Hlen].
  rewrite Hrow in Hy. simpl in Hy.
  pose proof (jnp_get_nonempty _ _ _ Hy) as Hpos. rewrite Hlen in Hpos.
  split; [done|].
  destruct (lookup_lt_is_Some_2 (take cols (drop (i * cols) flat)) (cols - 1))
    as [x Hx]; [lia|].
  assert (jnp_get (take cols (drop (i * cols) flat)) (-1) = Ok x) as Hget.
  { apply jnp_get_last. by rewrite Hlen. }
  rewrite Hget in Hy. injection Hy as <-.
  rewrite lookup_take_lt in Hx by lia. by rewrite lookup_drop in Hx.
Qed.

Lemma reshape_read_first {A : Type} (flat : list A) m rows cols i y :
  jnp_reshape flat rows cols = Ok m -> i < rows ->
  (jnp_get m (Z.of_nat i) ≫= fun row => jnp_get row 0) = Ok y ->
  0 < cols /\ flat !! (i * cols + 0) = Some y.
Proof.
  intros Hm Hi Hy. destruct (reshape_row _ _ _ _ _ Hm Hi) as [Hrow Hlen].
  rewrite Hrow in Hy. simpl in Hy.
  pose proof (jnp_get_nonempty _ _ _ Hy) as Hpos. rewrite Hlen in Hpos.
  split; [done|].
  destruct (lookup_lt_is_Some_2 (take cols (drop (i * cols) flat)) 0)
    as [x Hx]; [lia|].
  change 0%Z with (Z.of_nat 0) in Hy.
  rewrite (jnp_get_nat _ 0 x Hx) in Hy. injection Hy as <-.
  rewrite lookup_take_lt in Hx by lia. by rewrite lookup_drop in Hx.
Qed.

Lemma dict_get_Ok {A : Type} (d : gmap string A) key v :
  dict_get d key = Ok v -> d !! key = Some v.
Proof. unfold dict_get. destruct (d !! key); [|discriminate]. by intros [= ->]. Qed.

Lemma parents_in_range_lookup self i :
  parents_in_range self -> 1 <= i < nbranches self ->
  exists p, parents self !! i = Some (Z.of_nat p) /\ p < nbranches self.
Proof.
  intros [Hlen Hall] Hi.
  destruct (lookup_lt_is_Some_2 (parents self) i) as [q Hq]; [lia|].
  assert (drop 1 (parents self) !! (i - 1) = Some q) as Hd.
  { rewrite lookup_drop. by replace (1 + (i - 1)) with i by lia. }
  pose proof (Forall_lookup_1 _ _ _ _ Hall Hd) as Hr. simpl in Hr.
  exists (Z.to_nat q). split; [|lia]. by rewrite Z2Nat.id by lia.
Qed.

(** The junction conductances of lines 92-99, entry by entry. *)
Lemma junction_conds_lookup self bwd fwd i p :
  junction_conds self = Ok (bwd, fwd) ->
  1 <= i < nbranches self ->
  parents self !! i = Some (Z.of_nat p) -> p < nbranches self ->
  exists child par,
    compartment self i (nseg self - 1) = Some child /\
    compartment self p 0 = Some par /\
    bwd !! (i - 1) = Some (coupling par child (resistivity child)) /\
    fwd !! (i - 1) = Some (coupling child par (resistivity par)).
Proof.
  intros Hj Hi Hp Hpn. unfold junction_conds in Hj. ok_inv Hj. subst bwd fwd.
  rename a into ar, a0 into axial_resistivity, a1 into rd, a2 into radiuses,
    a3 into ln, a4 into lengths, a5 into rad1, a6 into pars, a7 into rad2,
    a8 into l1, a9 into l2, a10 into r_a1, a11 into r_a2.
  assert (arange 1 (Z.of_nat (nbranches self)) !! (i - 1) = Some (Z.of_nat i)) as Hk.
  { rewrite arange_lookup by lia. do 2 f_equal. lia. }
  assert (pars !! (i - 1) = Some (Z.of_nat p)) as Hpar.
  { destruct (traverse_lookup _ _ _ _ _ Ha6 Hk) as (q & Hq & Hget).
    rewrite (jnp_get_nat _ _ _ Hp) in Hget. by injection Hget as <-. }
  destruct (traverse_lookup _ _ _ _ _ Ha5 Hk) as (x1 & Hx1 & Hg1).
  destruct (traverse_lookup _ _ _ _ _ Ha7 Hpar) as (x2 & Hx2 & Hg2).
  destruct (traverse_lookup _ _ _ _ _ Ha8 Hk) as (y1 & Hy1 & Hg3).
  destruct (traverse_lookup _ _ _ _ _ Ha9 Hpar) as (y2 & Hy2 & Hg4).
  destruct (traverse_lookup _ _ _ _ _ Ha10 Hk) as (z1 & Hz1 & Hg5).
  destruct (traverse_lookup _ _ _ _ _ Ha11 Hpar) as (z2 & Hz2 & Hg6).
  destruct (reshape_read_last _ _ _ _ _ _ Ha2 (proj2 Hi) Hg1) as [Hpos Hr1].
  destruct (reshape_read_first _ _ _ _ _ _ Ha2 Hpn Hg2) as [_ Hr2].
  destruct (reshape_read_last _ _ _ _ _ _ Ha4 (proj2 Hi) Hg3) as [_ Hr3].
  destruct (reshape_read_first _ _ _ _ _ _ Ha4 Hpn Hg4) as [_ Hr4].
  destruct (reshape_read_last _ _ _ _ _ _ Ha0 (proj2 Hi) Hg5) as [_ Hr5].
  destruct (reshape_read_first _ _ _ _ _ _ Ha0 Hpn Hg6) as [_ Hr6].
  apply dict_get_Ok in Ha, Ha1, Ha3.
  exists (mkGeometry x1 y1 z1), (mkGeometry x2 y2 z2).
  unfold compartment. rewrite !decide_True by lia.
  rewrite Ha, Ha1, Ha3. simpl. rewrite Hr1, Hr2, Hr3, Hr4, Hr5, Hr6. simpl.
  split_and!; [done|done|..]; unfold coupling; simpl.
  - exact (compute_coupling_cond_lookup rad2 rad1 r_a1 l2 l1 _ _ _ _ _ _
             Hx2 Hx1 Hz1 Hy2 Hy1).
  - exact (compute_coupling_cond_lookup rad1 rad2 r_a2 l1 l2 _ _ _ _ _ _
             Hx1 Hx2 Hz2 Hy1 Hy2).
Qed.

Lemma junction_conds_length self bwd fwd :
  junction_conds self = Ok (bwd, fwd) ->
  length bwd = nbranches self - 1 /\ length fwd = nbranches self - 1.
Proof.
  intros Hj. unfold junction_conds in Hj. ok_inv Hj. subst bwd fwd.
  pose proof (arange_length (nbranches self)) as Hn.
  apply traverse_length in Ha5, Ha6, Ha7, Ha8, Ha9, Ha10, Ha11.
  split.
  - apply (compute_coupling_cond_length a7 a5 a10 a9 a8); congruence.
  - apply (compute_coupling_cond_length a5 a7 a11 a8 a9); congruence.
Qed.

(** *** What [init_branch_conds] leaves behind *)

Lemma init_branch_conds_Returned self self' :
  init_branch_conds self = Returned tt self' ->
  exists bwd fwd summed,
    junction_conds self = Ok (bwd, fwd) /\
    foldM (add_junction (parents self) (imul_int fwd (10 ^ 7)) (imul_int bwd (10 ^ 7)))
          (arange 1 (Z.of_nat (nbranches self))) (summed_coupling_conds self)
    = Ok summed /\
    self' = conds_assembled self (zero :: imul_int bwd (10 ^ 7))
                            (zero :: imul_int fwd (10 ^ 7)) summed.
Proof.
  unfold init_branch_conds, method_bind, attr, lift, assign.
  destruct (junction_conds self) as [e|[bwd fwd]] eqn:Hj; [discriminate|].
  destruct self; simpl.
  match goal with |- context [foldM ?f ?l ?m] => destruct (foldM f l m) eqn:Hf end;
    [discriminate|].
  intros [= <-]. by eexists _, _, _.
Qed.

(** A call that raises has set neither the flag nor the sums. *)
Lemma init_branch_conds_Raised self e self' :
  init_branch_conds self = Raised e self' ->
  initialized_conds self' = initialized_conds self /\
  summed_coupling_conds self' = summed_coupling_conds self.
Proof.
  unfold init_branch_conds, method_bind, attr, lift, assign.
  destruct (junction_conds self) as [e'|[bwd fwd]] eqn:Hj.
  - by intros [= -> <-].
  - destruct self; simpl.
    match goal with |- context [foldM ?f ?l ?m] => destruct (foldM f l m) eqn:Hf end;
      [|discriminate].
    by intros [= <- <-].
Qed.

(** *** The loop of lines 105-111 *)

Lemma at_add_shape (m : list (list F)) rows cols r c v :
  has_shape m rows cols -> has_shape (at_add m r c v) rows cols.
Proof.
  intros [Hlen Hrows]. unfold at_add.
  destruct (in_bounds (length m) r) as [i|]; [|done].
  split; [by rewrite length_alter|].
  apply Forall_alter; [done|]. intros row _ Hrow.
  destruct (in_bounds (length row) c) as [j|]; [|done].
  by rewrite length_alter.
Qed.

Lemma entry_at_add (m : list (list F)) (r : nat) (c : Z) v row j r' c' :
  m !! r = Some row -> in_bounds (length row) c = Some j ->
  entry (at_add m (Z.of_nat r) c v) r' c'
  = if decide (r' = r /\ c' = j)
    then (fun x => (x ⊕ v)%py) <$> entry m r' c'
    else entry m r' c'.
Proof.
  intros Hrow Hj. unfold at_add, entry.
  rewrite in_bounds_nat by (by eapply lookup_lt_Some).
  destruct (decide (r' = r)) as [->|Hr].
  - rewrite list_lookup_alter_eq, Hrow. simpl. rewrite Hj.
    destruct (decide (c' = j)) as [->|Hc].
    + rewrite decide_True by done. by rewrite list_lookup_alter_eq.
    + rewrite decide_False by tauto. by rewrite list_lookup_alter_ne.
  - rewrite decide_False by tauto. by rewrite list_lookup_alter_ne.
Qed.

Lemma add_junction_entry self (fwd0 bwd0 : list F) (m m' : list (list F)) b p r c x :
  has_shape m (nbranches self) (nseg self) ->
  length fwd0 = nbranches self - 1 -> length bwd0 = nbranches self - 1 ->
  1 <= b < nbranches self ->
  parents self !! b = Some (Z.of_nat p) -> p < nbranches self ->
  add_junction (parents self) fwd0 bwd0 m (Z.of_nat b) = Ok m' ->
  entry m r c = Some x ->
  has_shape m' (nbranches self) (nseg self) /\
  entry m' r c
  = Some (foldl add x (junction_terms_of self (zero :: fwd0) (zero :: bwd0) r c b)).
Proof.
  intros Hshape Hlf Hlb' Hb Hp Hpn Hadd Hx. unfold add_junction in Hadd. ok_inv Hadd.
  rename a into f, a0 into q, a1 into g. subst m'.
  rewrite (jnp_get_nat _ _ _ Hp) in Ha0. injection Ha0 as <-.
  replace (Z.of_nat b - 1)%Z with (Z.of_nat (b - 1)) in Ha, Ha1 by lia.
  assert (c < nseg self) as Hc.
  { unfold entry in Hx. destruct (m !! r) as [row|] eqn:Hrow; [|done]. simpl in Hx.
    apply lookup_lt_Some in Hx.
    destruct Hshape as [_ Hall].
    by rewrite <- (Forall_lookup_1 _ _ _ _ Hall Hrow). }
  assert (forall (l : list F) y, jnp_get l (Z.of_nat (b - 1)) = Ok y ->
          length l = nbranches self - 1 -> (zero :: l) !! b = Some y) as Hpad.
  { intros l y0 Hget Hlen.
    destruct (lookup_lt_is_Some_2 l (b - 1)) as [y Hy]; [lia|].
    rewrite (jnp_get_nat _ _ _ Hy) in Hget. injection Hget as <-.
    destruct b; [lia|]. simpl. by replace (S b - 1) with b in Hy by lia. }
  split; [by do 2 apply at_add_shape|].
  destruct Hshape as [Hlen Hall].
  destruct (lookup_lt_is_Some_2 m b) as [rowb Hrowb]; [lia|].
  pose proof (Forall_lookup_1 _ _ _ _ Hall Hrowb) as Hlb. simpl in Hlb.
  pose proof (at_add_shape m _ _ (Z.of_nat b) (-1) f (conj Hlen Hall)) as [Hlen1 Hall1].
  destruct (lookup_lt_is_Some_2 (at_add m (Z.of_nat b) (-1) f) p) as [rowp Hrowp];
    [lia|].
  pose proof (Forall_lookup_1 _ _ _ _ Hall1 Hrowp) as Hlp. simpl in Hlp.
  rewrite (entry_at_add _ p 0 g rowp 0 r c Hrowp)
    by (rewrite Hlp; apply (in_bounds_nat _ 0); lia).
  rewrite (entry_at_add _ b (-1) f rowb (nseg self - 1) r c Hrowb)
    by (rewrite Hlb; apply in_bounds_last; lia).
  rewrite Hx. unfold junction_terms_of. rewrite Hp, foldl_app.
  rewrite (Hpad fwd0 f Ha Hlf), (Hpad bwd0 g Ha1 Hlb').
  repeat case_decide; simpl; try done; exfalso;
    repeat match goal with
           | H : _ /\ _ |- _ => destruct H
           | H : Some _ = Some _ |- _ => injection H as H
           | H : ~ (_ /\ _) |- _ => apply H; split; try done; try lia; try congruence
           end; try lia.
Qed.

Lemma foldM_add_junction self (fwd0 bwd0 : list F) (bs : list nat) m m' r c x :
  parents_in_range self ->
  has_shape m (nbranches self) (nseg self) ->
  length fwd0 = nbranches self - 1 -> length bwd0 = nbranches self - 1 ->
  Forall (fun b => 1 <= b < nbranches self) bs ->
  foldM (add_junction (parents self) fwd0 bwd0) (Z.of_nat <$> bs) m = Ok m' ->
  entry m r c = Some x ->
  entry m' r c
  = Some (foldl add x
            (flat_map (junction_terms_of self (zero :: fwd0) (zero :: bwd0) r c) bs)).
Proof.
  intros Hpar Hshape Hlf Hlb Hbs. revert m x Hshape.
  induction Hbs as [|b bs Hb Hbs IH]; intros m x Hshape Hfold Hx; simpl in *.
  - by injection Hfold as <-.
  - apply bind_Ok in Hfold as (m1 & Hadd & Hfold).
    destruct (parents_in_range_lookup self b Hpar Hb) as (p & Hp & Hpn).
    destruct (add_junction_entry self fwd0 bwd0 m m1 b p r c x
                Hshape Hlf Hlb Hb Hp Hpn Hadd Hx) as [Hshape1 Hx1].
    rewrite foldl_app. by apply (IH m1).
Qed.

Lemma flat_map_nil {A B : Type} (g : A -> list B) (l : list A) :
  (forall a, a ∈ l -> g a = []) -> flat_map g l = [].
Proof.
  induction l as [|a l IH]; intros Hg; simpl; [done|].
  rewrite Hg by left. rewrite IH; [done|]. intros a' Ha'. apply Hg. by right.
Qed.

Lemma flat_map_only {A B : Type} (g : A -> list B) (l : list A) (a : A) :
  NoDup l -> a ∈ l -> (forall a', a' ∈ l -> a' <> a -> g a' = []) ->
  flat_map g l = g a.
Proof.
  intros Hnd Ha Hg. apply list_elem_of_split in Ha as (l1 & l2 & ->).
  apply NoDup_app in Hnd as (_ & Hl1 & Hl2). apply NoDup_cons in Hl2 as [Hl2 _].
  rewrite flat_map_app. simpl.
  rewrite (flat_map_nil g l1), (flat_map_nil g l2), app_nil_r; [done|..].
  - intros a' Ha'. apply Hg; [set_solver|]. intros ->. done.
  - intros a' Ha'. apply Hg; [set_solver|]. intros ->. by eapply Hl1; [|left].
Qed.

Lemma to_mS_per_cm2_imul (xs : list F) : imul_int xs (10 ^ 7) = to_mS_per_cm2 <$> xs.
Proof. done. Qed.

Lemma padded_lookup (xs : list F) (g : F -> F) (i : nat) (x : F) :
  1 <= i -> xs !! (i - 1) = Some x -> (zero :: (g <$> xs)) !! i = Some (g x).
Proof.
  intros Hi Hx. destruct i; [lia|]. simpl.
  replace (S i - 1) with i in Hx by lia. by rewrite list_lookup_fmap, Hx.
Qed.

(** The junction conductances that [init_branch_conds] stores, for a
    non-root branch [i] with parent [p]. *)
Lemma init_branch_conds_junction self self' i :
  init_branch_conds self = Returned tt self' ->
  parents_in_range self ->
  1 <= i < nbranches self ->
  exists p child par bwd fwd,
    parents self !! i = Some (Z.of_nat p) /\
    compartment self i (nseg self - 1) = Some child /\
    compartment self p 0 = Some par /\
    holds (branch_conds_bwd self') bwd /\
    holds (branch_conds_fwd self') fwd /\
    bwd !! i = Some (to_mS_per_cm2 (coupling par child (resistivity child))) /\
    fwd !! i = Some (to_mS_per_cm2 (coupling child par (resistivity par))).
Proof.
  intros Hinit Hpar Hi.
  destruct (init_branch_conds_Returned _ _ Hinit) as (bwd & fwd & summed & Hj & _ & ->).
  destruct (parents_in_range_lookup self i Hpar Hi) as (p & Hp & Hpn).
  destruct (junction_conds_lookup self bwd fwd i p Hj Hi Hp Hpn)
    as (child & par & Hc & Hpa & Hb & Hf).
  exists p, child, par. eexists _, _. split_and!; try done.
  - rewrite to_mS_per_cm2_imul. apply padded_lookup; [lia|done].
  - rewrite to_mS_per_cm2_imul. apply padded_lookup; [lia|done].
Qed.

Lemma init_branch_conds_entry self self' r c x :
  init_branch_conds self = Returned tt self' ->
  parents_in_range self ->
  has_shape (summed_coupling_conds self) (nbranches self) (nseg self) ->
  entry (summed_coupling_conds self) r c = Some x ->
  exists fwd bwd,
    holds (branch_conds_fwd self') fwd /\ holds (branch_conds_bwd self') bwd /\
    entry (summed_coupling_conds self') r c
    = Some (foldl add x (junction_terms self fwd bwd r c)).
Proof.
  intros Hinit Hpar Hshape Hx.
  destruct (init_branch_conds_Returned _ _ Hinit) as (bwd & fwd & summed & Hj & Hf & ->).
  destruct (junction_conds_length _ _ _ Hj) as [Hlb Hlf].
  eexists _, _. split_and!; [done|done|]. simpl.
  rewrite arange_seq in Hf. unfold junction_terms.
  eapply foldM_add_junction; try done.
  - unfold imul_int. by rewrite length_fmap.
  - unfold imul_int. by rewrite length_fmap.
  - apply Forall_forall. intros b Hb. apply elem_of_seq in Hb. lia.
Qed.

Lemma junction_terms_last self (fwd bwd : list F) b f :
  2 <= nseg self -> 1 <= b < nbranches self -> fwd !! b = Some f ->
  junction_terms self fwd bwd b (nseg self - 1) = [f].
Proof.
  intros Hn Hb Hf. unfold junction_terms.
  rewrite (flat_map_only _ _ b).
  - unfold junction_terms_of. rewrite decide_True by (split; [done|lia]).
    rewrite decide_False by (intros [_ ?]; lia). by rewrite Hf.
  - apply NoDup_seq.
  - apply elem_of_seq. lia.
  - intros b' _ Hne. unfold junction_terms_of.
    rewrite decide_False by (intros [? _]; done).
    by rewrite decide_False by (intros [_ ?]; lia).
Qed.

Lemma junction_terms_first self (fwd bwd : list F) p :
  2 <= nseg self -> junction_terms self fwd bwd p 0 = children_bwd self bwd p.
Proof.
  intros Hn. unfold junction_terms, children_bwd. apply flat_map_ext. intros b.
  unfold junction_terms_of. rewrite decide_False by (intros [_ ?]; lia). simpl.
  destruct (decide (parents self !! b = Some (Z.of_nat p))) as [Hp|Hp].
  - by rewrite decide_True.
  - by rewrite decide_False by (intros [? _]; done).
Qed.

Lemma junction_terms_other self (fwd bwd : list F) r c :
  ~ (1 <= r /\ S c = nseg self) -> c <> 0 -> junction_terms self fwd bwd r c = [].
Proof.
  intros Hr Hc. unfold junction_terms. apply flat_map_nil. intros b Hb.
  apply elem_of_seq in Hb. unfold junction_terms_of.
  rewrite decide_False by (intros [-> ?]; apply Hr; split; [lia|done]).
  by rewrite decide_False by (intros [_ ?]; done).
Qed.

(** C1 (amended). [compute_coupling_cond] returns exactly
    rad1 * rad2^2 / r_a / (rad2^2 * l1 + rad1^2 * l2) / l1, and every junction
    conductance that [init_branch_conds] stores is this formula, converted
    to mS / cm^2, on the geometry of the two compartments (a, b) of the
    junction with the axial resistivity of compartment b: the backward one
    takes a = first compartment of the parent, b = last compartment of the
    branch; the forward one takes them the other way round. *)
Theorem junction_conds_use_target_resistivity self self' :
  init_branch_conds self = Returned tt self' ->
  parents_in_range self ->
  (forall rad1 rad2 r_a l1 l2 : F,
     compute_coupling_cond rad1 rad2 r_a l1 l2
     = (rad1 ⊗ rad2 ^^ 2 ⊘ r_a ⊘ (rad2 ^^ 2 ⊗ l1 ⊕ rad1 ^^ 2 ⊗ l2) ⊘ l1)%py) /\
  (forall i, 1 <= i < nbranches self ->
     exists p child par bwd fwd,
       parents self !! i = Some (Z.of_nat p) /\
       compartment self i (nseg self - 1) = Some child /\
       compartment self p 0 = Some par /\
       holds (branch_conds_bwd self') bwd /\
       holds (branch_conds_fwd self') fwd /\
       bwd !! i
       = Some (to_mS_per_cm2
                 (radius par ⊗ radius child ^^ 2 ⊘ resistivity child
                    ⊘ (radius child ^^ 2 ⊗ len par ⊕ radius par ^^ 2 ⊗ len child)
                    ⊘ len par)%py) /\
       fwd !! i
       = Some (to_mS_per_cm2
                 (radius child ⊗ radius par ^^ 2 ⊘ resistivity par
                    ⊘ (radius par ^^ 2 ⊗ len child ⊕ radius child ^^ 2 ⊗ len par)
                    ⊘ len child)%py)).
Proof.
  intros Hinit Hpar. split; [done|]. intros i Hi.
  destruct (init_branch_conds_junction self self' i Hinit Hpar Hi)
    as (p & child & par & bwd & fwd & H1 & H2 & H3 & H4 & H5 & H6 & H7).
  exists p, child, par, bwd, fwd. done.
Qed.

(** C2 (amended). For a non-root branch i with parent p,
    [branch_conds_bwd[i]] is the formula evaluated with a = the first
    compartment of p and b = the last compartment of i, and
    [branch_conds_fwd[i]] with a = the last compartment of i and b = the
    first compartment of p; each takes the axial resistivity of its b, and
    is converted to mS / cm^2. *)
Theorem junction_conds_directions self self' i p child par :
  init_branch_conds self = Returned tt self' ->
  parents_in_range self ->
  1 <= i < nbranches self ->
  parents self !! i = Some (Z.of_nat p) ->
  compartment self i (nseg self - 1) = Some child ->
  compartment self p 0 = Some par ->
  exists bwd fwd,
    holds (branch_conds_bwd self') bwd /\
    holds (branch_conds_fwd self') fwd /\
    bwd !! i = Some (to_mS_per_cm2 (coupling par child (resistivity child))) /\
    fwd !! i = Some (to_mS_per_cm2 (coupling child par (resistivity par))).
Proof.
  intros Hinit Hpar Hi Hp Hc Hpa.
  destruct (init_branch_conds_junction self self' i Hinit Hpar Hi)
    as (p' & child' & par' & bwd & fwd & H1 & H2 & H3 & H4 & H5 & H6 & H7).
  rewrite Hp in H1. injection H1 as H1. apply Nat2Z.inj in H1. subst p'.
  rewrite Hc in H2. injection H2 as <-. rewrite Hpa in H3. injection H3 as <-.
  by exists bwd, fwd.
Qed.

(** C3 (amended). After [init_branch_conds] has run once, every entry
    [(r, c)] of [summed_coupling_conds] is its old value with the junction
    conductances of the entry added to it one after the other, in the order
    of the loop: the forward conductance of branch r when r is not the root
    and c = nseg - 1, and the backward conductance of each child of r when
    c = 0. With two compartments or more per branch these are different
    entries: [(b, nseg-1)] has grown by exactly the forward conductance of
    b, [(p, 0)] by the backward conductances of all the children of p, and
    every other entry is unchanged. With nseg = 1 both kinds land in the
    one entry of the branch. *)
Theorem summed_coupling_conds_accumulates self self' :
  init_branch_conds self = Returned tt self' ->
  parents_in_range self ->
  has_shape (summed_coupling_conds self) (nbranches self) (nseg self) ->
  exists fwd bwd,
    holds (branch_conds_fwd self') fwd /\ holds (branch_conds_bwd self') bwd /\
    (forall r c x,
       entry (summed_coupling_conds self) r c = Some x ->
       entry (summed_coupling_conds self') r c
       = Some (foldl add x (junction_terms self fwd bwd r c))) /\
    (2 <= nseg self ->
     (forall b x f, 1 <= b < nbranches self ->
        entry (summed_coupling_conds self) b (nseg self - 1) = Some x ->
        fwd !! b = Some f ->
        entry (summed_coupling_conds self') b (nseg self - 1) = Some (x ⊕ f)%py) /\
     (forall p x,
        entry (summed_coupling_conds self) p 0 = Some x ->
        entry (summed_coupling_conds self') p 0
        = Some (foldl add x (children_bwd self bwd p))) /\
     (forall r c x, ~ (1 <= r /\ S c = nseg self) -> c <> 0 ->
        entry (summed_coupling_conds self) r c = Some x ->
        entry (summed_coupling_conds self') r c = Some x)).
Proof.
  intros Hinit Hpar Hshape.
  destruct (init_branch_conds_Returned _ _ Hinit) as (bwd0 & fwd0 & summed & Hj & Hf & Hs).
  exists (zero :: imul_int fwd0 (10 ^ 7)), (zero :: imul_int bwd0 (10 ^ 7)).
  assert (forall r c x,
            entry (summed_coupling_conds self) r c = Some x ->
            entry (summed_coupling_conds self') r c
            = Some (foldl add x
                      (junction_terms self (zero :: imul_int fwd0 (10 ^ 7))
                                      (zero :: imul_int bwd0 (10 ^ 7)) r c))) as Hentry.
  { intros r c x Hx.
    destruct (init_branch_conds_entry self self' r c x Hinit Hpar Hshape Hx)
      as (fwd & bwd & Hfw & Hbw & He).
    subst self'. unfold holds in Hfw, Hbw. simpl in Hfw, Hbw.
    injection Hfw as <-. injection Hbw as <-. done. }
  split_and!; [by subst self'|by subst self'|done|].
  intros Hn. split_and!.
  - intros b x f Hb Hx Hfb. rewrite (Hentry _ _ _ Hx).
    by rewrite (junction_terms_last self _ _ b f Hn Hb Hfb).
  - intros p x Hx. rewrite (Hentry _ _ _ Hx). by rewrite junction_terms_first.
  - intros r c x Hr Hc Hx. rewrite (Hentry _ _ _ Hx).
    by rewrite junction_terms_other.
Qed.

Lemma Cell__init___nbranches base (bs : list (@Branch F Channels)) ps self :
  Cell__init__ base bs ps = Ok self ->
  0 < nbranches self /\ nbranches self = length bs /\ parents self = ps /\
  branch_conds_fwd self = base_branch_conds_fwd base /\
  initialized_conds self = false /\ initialized_morph self = false.
Proof.
  unfold Cell__init__. intros Hc. ok_inv Hc. subst self. simpl.
  destruct bs; [discriminate|]. simpl. split_and!; try done. lia.
Qed.

(** C6. After [init_branch_conds] on a cell (it has a branch: [__init__]
    reads [branches[0]]), [branch_conds_fwd] and [branch_conds_bwd] each have
    length nbranches and element 0 equal to 0.0; every branch index in
    [0, nbranches), the root included, reads its own element of either
    array. *)
Theorem branch_conds_zero_padded self self' :
  0 < nbranches self ->
  init_branch_conds self = Returned tt self' ->
  exists fwd bwd,
    holds (branch_conds_fwd self') fwd /\ holds (branch_conds_bwd self') bwd /\
    length fwd = nbranches self' /\ length bwd = nbranches self' /\
    fwd !! 0 = Some zero /\ bwd !! 0 = Some zero /\
    (forall i, i < nbranches self' ->
       exists f g, fwd !! i = Some f /\ bwd !! i = Some g /\
                   jnp_get fwd (Z.of_nat i) = Ok f /\ jnp_get bwd (Z.of_nat i) = Ok g).
Proof.
  intros Hpos Hinit.
  destruct (init_branch_conds_Returned _ _ Hinit) as (bwd & fwd & summed & Hj & _ & ->).
  destruct (junction_conds_length _ _ _ Hj) as [Hlb Hlf].
  eexists _, _. split_and!; try done; simpl.
  - unfold imul_int. rewrite length_fmap. lia.
  - unfold imul_int. rewrite length_fmap. lia.
  - intros i Hi.
    destruct (lookup_lt_is_Some_2 (zero :: imul_int fwd (10 ^ 7)) i) as [f Hf'];
      [simpl; unfold imul_int; rewrite length_fmap; lia|].
    destruct (lookup_lt_is_Some_2 (zero :: imul_int bwd (10 ^ 7)) i) as [g Hg'];
      [simpl; unfold imul_int; rewrite length_fmap; lia|].
    exists f, g. split_and!; try done; by apply jnp_get_nat.
Qed.

(** C7. [init_branch_conds] multiplies each junction conductance, forward
    and backward, by 10^7, once, and it is the converted values that the
    loop adds to [summed_coupling_conds]. *)
Theorem junction_conds_converted_once self self' :
  init_branch_conds self = Returned tt self' ->
  exists raw_bwd raw_fwd fwd bwd,
    junction_conds self = Ok (raw_bwd, raw_fwd) /\
    holds (branch_conds_fwd self') (zero :: fwd) /\
    holds (branch_conds_bwd self') (zero :: bwd) /\
    length fwd = length raw_fwd /\ length bwd = length raw_bwd /\
    (forall k g, raw_fwd !! k = Some g -> fwd !! k = Some (g ⊗ of_int (10 ^ 7))%py) /\
    (forall k g, raw_bwd !! k = Some g -> bwd !! k = Some (g ⊗ of_int (10 ^ 7))%py) /\
    foldM (add_junction (parents self) fwd bwd)
          (arange 1 (Z.of_nat (nbranches self))) (summed_coupling_conds self)
    = Ok (summed_coupling_conds self').
Proof.
  intros Hinit.
  destruct (init_branch_conds_Returned _ _ Hinit) as (bwd & fwd & summed & Hj & Hf & ->).
  exists bwd, fwd, (imul_int fwd (10 ^ 7)), (imul_int bwd (10 ^ 7)).
  split_and!; try done; unfold imul_int.
  - by rewrite length_fmap.
  - by rewrite length_fmap.
  - intros k g Hg. by rewrite list_lookup_fmap, Hg.
  - intros k g Hg. by rewrite list_lookup_fmap, Hg.
Qed.
End Assembly.

(** ** Initialisation twice, stepping and attribute lookup *)

Section Orchestration.
Context {F : Type} {SF : Scalar F} {Channels : Type}.
Local Abbreviation cell := (@Cell F Channels).
Implicit Types self : cell.

Variable Module_names : list string.
Variable _compute_num_kids : list Z -> result (list Z).
Variable compute_branches_in_level : list Z -> result (list (list Z)).
Variable _compute_index_of_kid : list Z -> result (list Z).
Variable cum_indizes_of_kids : list (list Z) -> Z -> list Z -> result (list (list Z)).
Variable step_channels :
  gmap string (list F) -> F -> Channels -> gmap string (list F) ->
  result (list (gmap string (list F)) * (list F * list F)).
Variable get_external_input :
  list F -> list Z -> list F -> list F -> list F -> result (list F).
Variable step_voltages : @SolverArgs F -> result (list (list F)).

Local Abbreviation init_morph' :=
  (init_morph _compute_num_kids compute_branches_in_level _compute_index_of_kid
              cum_indizes_of_kids).
Local Abbreviation step' := (step step_channels get_external_input step_voltages).
Local Abbreviation morph_helpers' :=
  (morph_helpers _compute_num_kids compute_branches_in_level _compute_index_of_kid
                 cum_indizes_of_kids).

Lemma init_morph_Returned self self1 :
  init_morph' self = Returned tt self1 ->
  exists nk bil pil kid,
    morph_helpers' self nk bil pil kid /\
    self1 = morph_indexed self nk (compute_levels (parents self)) bil pil kid.
Proof.
  unfold init_morph, method_bind, attr, lift, assign, morph_helpers.
  destruct (_compute_num_kids (parents self)) as [|nk] eqn:H1; [discriminate|].
  destruct self; simpl in *.
  destruct (compute_branches_in_level _) as [|bil] eqn:H2; [discriminate|]. simpl.
  destruct (traverse _ bil) as [|pil] eqn:H3; [discriminate|]. simpl.
  destruct (_compute_index_of_kid _) as [|iok] eqn:H4; [discriminate|]. simpl.
  destruct (traverse (gather iok) bil) as [|ioks] eqn:H5; [discriminate|]. simpl.
  destruct (cum_indizes_of_kids _ _ _) as [|kid] eqn:H6; [discriminate|]. simpl.
  intros [= <-]. exists nk, bil, pil, kid. split; [|done].
  split_and!; try done. by exists iok, ioks.
Qed.

Lemma init_morph_helpers self nk bil pil kid :
  morph_helpers' self nk bil pil kid ->
  init_morph' self
  = Returned tt (morph_indexed self nk (compute_levels (parents self)) bil pil kid).
Proof.
  intros (H1 & H2 & H3 & iok & ioks & H4 & H5 & H6).
  unfold init_morph, method_bind, attr, lift, assign.
  rewrite H1. destruct self; simpl in *.
  rewrite H2. simpl. rewrite H3. simpl. rewrite H4. simpl. rewrite H5. simpl.
  rewrite H6. done.
Qed.

Lemma add_junction_total (ps : list Z) (fwd bwd : list F) m m' b m2 :
  add_junction ps fwd bwd m b = Ok m' ->
  exists m2', add_junction ps fwd bwd m2 b = Ok m2'.
Proof.
  unfold add_junction. intros Hadd. ok_inv Hadd.
  rewrite Ha, Ha0, Ha1. simpl. eauto.
Qed.

Lemma foldM_add_junction_total (ps : list Z) (fwd bwd : list F) bs m m' m2 :
  foldM (add_junction ps fwd bwd) bs m = Ok m' ->
  exists m2', foldM (add_junction ps fwd bwd) bs m2 = Ok m2'.
Proof.
  revert m m2. induction bs as [|b bs IH]; intros m m2 Hf; simpl in *; [eauto|].
  apply bind_Ok in Hf as (m1 & Hadd & Hf).
  destruct (add_junction_total _ _ _ _ _ _ m2 Hadd) as [m3 Hm3].
  rewrite Hm3. simpl. by eapply IH.
Qed.

Lemma init_branch_conds_junction_conds self bwd fwd summed :
  junction_conds self = Ok (bwd, fwd) ->
  foldM (add_junction (parents self) (imul_int fwd (10 ^ 7)) (imul_int bwd (10 ^ 7)))
        (arange 1 (Z.of_nat (nbranches self))) (summed_coupling_conds self)
  = Ok summed ->
  init_branch_conds self
  = Returned tt (conds_assembled self (zero :: imul_int bwd (10 ^ 7))
                                 (zero :: imul_int fwd (10 ^ 7)) summed).
Proof.
  intros Hj Hf. unfold init_branch_conds, method_bind, attr, lift, assign.
  rewrite Hj. destruct self; simpl in *. by rewrite Hf.
Qed.

(** C5 (amended). A second call of [init_morph] leaves the instance as the
    first call left it. A second call of [init_branch_conds] does not
    consult [initialized_conds]: it leaves [branch_conds_fwd],
    [branch_conds_bwd], [levels] and [kid_inds_in_each_level] as they were,
    and runs its loop again over [summed_coupling_conds], adding every
    junction conductance to it a second time. *)
Theorem second_initialisation self morph conds :
  init_morph' self = Returned tt morph ->
  init_branch_conds self = Returned tt conds ->
  init_morph' morph = Returned tt morph /\
  exists conds2 fwd bwd,
    init_branch_conds conds = Returned tt conds2 /\
    branch_conds_fwd conds2 = branch_conds_fwd conds /\
    branch_conds_bwd conds2 = branch_conds_bwd conds /\
    levels conds2 = levels conds /\
    kid_inds_in_each_level conds2 = kid_inds_in_each_level conds /\
    initialized_conds conds2 = true /\
    holds (branch_conds_fwd conds) (zero :: fwd) /\
    holds (branch_conds_bwd conds) (zero :: bwd) /\
    foldM (add_junction (parents conds) fwd bwd)
          (arange 1 (Z.of_nat (nbranches conds))) (summed_coupling_conds conds)
    = Ok (summed_coupling_conds conds2).
Proof.
  intros Hm Hc. split.
  - destruct (init_morph_Returned _ _ Hm) as (nk & bil & pil & kid & Hh & ->).
    by rewrite (init_morph_helpers _ nk bil pil kid).
  - destruct (init_branch_conds_Returned _ _ Hc) as (bwd & fwd & summed & Hj & Hf & ->).
    destruct (foldM_add_junction_total _ _ _ _ _ _ summed Hf) as [summed2 Hf2].
    eexists _, (imul_int fwd (10 ^ 7)), (imul_int bwd (10 ^ 7)).
    split; [by apply (init_branch_conds_junction_conds _ bwd fwd summed2)|].
    done.
Qed.

(** C4. On a freshly constructed cell on which nothing has bound
    [branch_conds_fwd], [step] does not reach [init_branch_conds]: reading
    [self.branch_conds_fwd] falls through to [__getattr__], whose assertion
    fails, and the cell is left as constructed. *)
Theorem step_before_init_branch_conds base bs ps self u dt i_inds i_current :
  base_branch_conds_fwd base = Unset ->
  Cell__init__ base bs ps = Ok self ->
  step' u dt i_inds i_current self = Raised AssertionError self /\
  initialized_conds self = false /\
  branch_conds_fwd self = Unset.
Proof.
  intros Hbase Hc. apply Cell__init___nbranches in Hc as (_ & _ & _ & Hf & Hi & _).
  rewrite Hbase in Hf. split_and!; [|done|done].
  unfold step, method_bind, attr, read_slot. by rewrite Hf.
Qed.

(** Had the attribute been bound to [None], the test of line 140 would
    have run [init_branch_conds]. *)
Lemma step_runs_init_branch_conds_on_None self u dt i_inds i_current e self' :
  branch_conds_fwd self = PyNone ->
  init_branch_conds self = Raised e self' ->
  step' u dt i_inds i_current self = Raised e self'.
Proof.
  intros Hf Hinit. unfold step, method_bind, attr, read_slot.
  rewrite Hf. simpl. by rewrite Hinit.
Qed.

(** C10 (amended). For any attribute name that is bound neither on the
    instance nor by the class body of [Cell] nor through the base class,
    access raises an assertion failure unless the name is exactly
    "branch", in which case a [BranchView] of the cell over its node table
    is returned. *)
Theorem getattr_unbound self key :
  assoc key (instance_dict self) = None ->
  key ∉ Cell_class ->
  key ∉ Module_names ->
  getattr Module_names self key =
    if decide (key = "branch") then Ok (ABranchView self (nodes self))
    else Raise AssertionError.
Proof.
  intros Hi Hc Hm. unfold getattr. rewrite Hi.
  rewrite decide_False by done. rewrite decide_False by done. done.
Qed.

Lemma method_bind_Returned {A B : Type} (m : @method F Channels A)
    (k : A -> @method F Channels B) self b self' :
  method_bind m k self = Returned b self' ->
  exists a s, m self = Returned a s /\ k a s = Returned b self'.
Proof.
  unfold method_bind. destruct (m self) as [a s|]; [|discriminate]. eauto.
Qed.

Lemma lift_Returned {A : Type} (r : result A) self a s :
  lift r self = Returned a s -> r = Ok a /\ s = self.
Proof. unfold lift. destruct r; [discriminate|]. by intros [= -> ->]. Qed.

(** The voltages that [step] returns are the flattened output of the
    solver, which was given the reshaped input: flattening its argument
    gives back the voltages of [u]. *)
Lemma step_voltages_roundtrip self self' u dt i_inds i_current final :
  step' u dt i_inds i_current self = Returned final self' ->
  exists v args out,
    u !! "voltages" = Some v /\
    flatten (arg_voltages args) = v /\
    step_voltages args = Ok out /\
    final !! "voltages" = Some (flatten out).
Proof.
  intros Hstep. unfold step in Hstep.
  do 4 (apply method_bind_Returned in Hstep as (? & ? & _ & Hstep)).
  apply method_bind_Returned in Hstep as (v & ? & Hv & Hstep).
  do 2 (apply method_bind_Returned in Hstep as (? & ? & _ & Hstep)).
  apply method_bind_Returned in Hstep as ([ncs [vt ct]] & ? & _ & Hstep).
  apply method_bind_Returned in Hstep as (? & ? & _ & Hstep).
  apply method_bind_Returned in Hstep as (v2 & ? & Hv2 & Hstep).
  do 13 (apply method_bind_Returned in Hstep as (? & ? & _ & Hstep)).
  apply method_bind_Returned in Hstep as (out & ? & Hs & Hstep).
  apply method_bind_Returned in Hstep as (fs & ? & _ & Hstep).
  apply lift_Returned in Hv as [Hv _], Hv2 as [Hv2 _], Hs as [Hs _].
  injection Hstep as <- <-.
  eexists v, _, out. split_and!; [by apply dict_get_Ok| |exact Hs|].
  - simpl. unfold jnp_reshape in Hv2. case_decide; [|discriminate].
    injection Hv2 as <-. by apply concat_chunks.
  - by rewrite lookup_insert_eq.
Qed.
End Orchestration.

(** C8. A flat vector of length nbranches * nseg, reshaped to
    (nbranches, nseg) and flattened in row-major order, is the same vector;
    and the other way round, an array of that shape, flattened and reshaped,
    is the same array. *)
Theorem reshape_flatten_roundtrip {A : Type} (nbranches nseg : nat) (v : list A) :
  length v = nbranches * nseg ->
  exists m,
    jnp_reshape v nbranches nseg = Ok m /\
    has_shape m nbranches nseg /\
    flatten m = v /\
    jnp_reshape (flatten m) nbranches nseg = Ok m.
Proof.
  intros Hv. exists (chunks nbranches nseg v).
  unfold jnp_reshape, flatten. rewrite decide_True by done.
  rewrite concat_chunks by done. rewrite decide_True by done.
  split_and!; try done. by apply chunks_shape.
Qed.

Lemma flatten_reshape_roundtrip {A : Type} (nbranches nseg : nat) (m : list (list A)) :
  has_shape m nbranches nseg -> jnp_reshape (flatten m) nbranches nseg = Ok m.
Proof.
  intros Hm. unfold jnp_reshape, flatten.
  rewrite decide_True by (by eapply concat_shape_length).
  by rewrite chunks_concat.
Qed.


(** ** Levels *)

Section Levels.
Variable ps : list Z.

Lemma ancestor_add (a b i : nat) :
  ancestor ps (a + b) i = ancestor ps a i ≫= ancestor ps b.
Proof.
  revert i. induction a as [|a IH]; intros i; simpl; [done|].
  destruct (parent_of ps i) as [j|]; simpl; [apply IH|done].
Qed.

Lemma ancestor_snoc (k i : nat) :
  ancestor ps (S k) i = ancestor ps k i ≫= parent_of ps.
Proof.
  replace (S k) with (k + 1) by lia. rewrite ancestor_add.
  destruct (ancestor ps k i) as [j|]; simpl; [|done].
  by destruct (parent_of ps j).
Qed.

(** A branch that reaches a root in [k] steps has level [k], whatever fuel
    is left beyond [k]. *)
Lemma level_of_ancestor (k i r fuel : nat) :
  ancestor ps k i = Some r -> ps !! r = Some (-1)%Z -> k < fuel ->
  level_of ps fuel i = Z.of_nat k.
Proof.
  revert i fuel. induction k as [|k IH]; intros i fuel Ha Hr Hf;
    destruct fuel as [|fuel]; try lia; simpl in *.
  - injection Ha as ->. rewrite Hr. by rewrite decide_True.
  - unfold parent_of in Ha. destruct (ps !! i) as [p|]; [|done]. simpl in Ha.
    destruct (decide (0 <= p)%Z) as [Hp|]; [|done]. simpl in Ha.
    rewrite decide_False by lia. rewrite (IH _ fuel Ha Hr) by lia. lia.
Qed.

Hypothesis Hvalid : valid_parents ps (length ps).

Lemma valid_parent_lookup (j : nat) :
  j < length ps ->
  ps !! j = Some (-1)%Z \/
  exists p, ps !! j = Some (Z.of_nat p) /\ p < length ps /\ parent_of ps j = Some p.
Proof.
  pose proof Hvalid as (_ & Hroot & Hrange & _). intros Hj.
  destruct j as [|j]; [by left|]. right.
  destruct (lookup_lt_is_Some_2 ps (S j) Hj) as [q Hq].
  assert (drop 1 ps !! j = Some q) as Hd by (by rewrite lookup_drop).
  pose proof (Forall_lookup_1 _ _ _ _ Hrange Hd) as Hr. simpl in Hr.
  exists (Z.to_nat q). rewrite Z2Nat.id by lia. split_and!; [done|lia|].
  unfold parent_of. rewrite Hq. simpl. by rewrite decide_True by lia.
Qed.

Lemma no_cycle (j d : nat) :
  j < length ps -> 1 <= d <= length ps -> ancestor ps d j <> Some j.
Proof.
  pose proof Hvalid as (_ & _ & _ & Hc). intros Hj Hd.
  unfold cycle_free in Hc. rewrite Forall_forall in Hc.
  specialize (Hc j). rewrite elem_of_seq in Hc.
  specialize (Hc ltac:(lia)). rewrite Forall_forall in Hc.
  apply Hc. apply elem_of_seq. lia.
Qed.

(** Walking up from a branch, either a root has been met or the walk is
    still on a branch. *)
Lemma walk_up (i k : nat) :
  i < length ps ->
  (exists k' r, k' < k /\ ancestor ps k' i = Some r /\ ps !! r = Some (-1)%Z)
  \/ (exists j, j < length ps /\ ancestor ps k i = Some j).
Proof.
  intros Hi. induction k as [|k IH]; [right; by exists i|].
  destruct IH as [(k' & r & Hk & Ha & Hr)|(j & Hj & Ha)].
  - left. exists k', r. split_and!; [lia|done|done].
  - destruct (valid_parent_lookup j Hj) as [Hroot|(p & _ & Hp & Hpar)].
    + left. exists k, j. split_and!; [lia|done|done].
    + right. exists p. split; [done|]. rewrite ancestor_snoc, Ha. done.
Qed.

Lemma reaches_root (i : nat) :
  i < length ps ->
  exists k r, k < length ps /\ ancestor ps k i = Some r /\ ps !! r = Some (-1)%Z.
Proof.
  intros Hi. destruct (walk_up i (length ps) Hi) as [H|(j & Hj & Ha)]; [done|].
  exfalso.
  (* the walk has visited [length ps + 1] branches: one of them twice *)
  assert (forall a, a <= length ps ->
            exists j', j' < length ps /\ ancestor ps a i = Some j') as Hdef.
  { intros a Hle. replace (length ps) with (a + (length ps - a)) in Ha by lia.
    rewrite ancestor_add in Ha.
    destruct (ancestor ps a i) as [j'|] eqn:Hj'; [|done]. simpl in Ha.
    exists j'. split; [|done].
    destruct (decide (a = length ps)) as [->|Hne].
    - replace (length ps - length ps) with 0 in Ha by lia. simpl in Ha. congruence.
    - destruct (length ps - a) as [|d] eqn:Hd; [lia|]. simpl in Ha.
      unfold parent_of in Ha. destruct (ps !! j') eqn:Hl; [|done].
      by apply lookup_lt_Some in Hl. }
  assert (forall a b, a < b <= length ps -> ancestor ps a i <> ancestor ps b i) as Hdiff.
  { intros a b Hab Heq.
    destruct (Hdef a ltac:(lia)) as (j' & Hj' & Haj).
    replace b with (a + (b - a)) in Heq by lia.
    rewrite ancestor_add, Haj in Heq. simpl in Heq.
    by apply (no_cycle j' (b - a) Hj' ltac:(lia)). }
  set (walk := (fun a => ancestor ps a i) <$> seq 0 (S (length ps))).
  assert (NoDup walk) as Hnd.
  { apply NoDup_fmap_2_strong; [|apply NoDup_seq].
    intros a b Ha' Hb' Heq. apply elem_of_seq in Ha', Hb'.
    destruct (Nat.lt_trichotomy a b) as [Hlt|[->|Hlt]]; [|done|].
    - by destruct (Hdiff a b ltac:(lia)).
    - by destruct (Hdiff b a ltac:(lia)). }
  assert (forall x, x ∈ walk -> x ∈ (Some <$> seq 0 (length ps))) as Hin.
  { intros x Hx. apply list_elem_of_fmap in Hx as (a & -> & Ha').
    apply elem_of_seq in Ha'.
    destruct (Hdef a ltac:(lia)) as (j' & Hj' & ->).
    apply list_elem_of_fmap. exists j'. split; [done|]. apply elem_of_seq. lia. }
  pose proof (submseteq_length _ _ (NoDup_submseteq _ _ Hnd Hin)) as Hlen.
  unfold walk in Hlen. rewrite !length_fmap, !length_seq in Hlen. lia.
Qed.

(** The levels of [compute_levels]: the root at 0, every other branch
    one above its parent. *)
Lemma compute_levels_lookup (i : nat) :
  i < length ps -> compute_levels ps !! i = Some (level_of ps (length ps) i).
Proof.
  intros Hi. unfold compute_levels.
  by rewrite list_lookup_fmap, lookup_seq_lt.
Qed.

Lemma compute_levels_root : compute_levels ps !! 0 = Some 0%Z.
Proof.
  pose proof Hvalid as (_ & Hroot & _).
  pose proof (lookup_lt_Some _ _ _ Hroot) as Hlen.
  rewrite compute_levels_lookup by done. f_equal.
  by apply (level_of_ancestor 0 0 0).
Qed.

Lemma compute_levels_parent (i : nat) :
  1 <= i < length ps ->
  exists p lp,
    ps !! i = Some (Z.of_nat p) /\
    compute_levels ps !! p = Some lp /\
    compute_levels ps !! i = Some (lp + 1)%Z.
Proof.
  intros Hi.
  destruct (valid_parent_lookup i ltac:(lia)) as [Hroot|(p & Hp & Hpn & Hpar)].
  { destruct i as [|i]; [lia|].
    pose proof Hvalid as (_ & _ & Hrange & _).
    assert (drop 1 ps !! i = Some (-1)%Z) as Hd by (by rewrite lookup_drop).
    pose proof (Forall_lookup_1 _ _ _ _ Hrange Hd) as Hr. simpl in Hr. lia. }
  destruct (reaches_root p Hpn) as (k & r & Hk & Ha & Hr).
  destruct (reaches_root i ltac:(lia)) as (k' & r' & Hk' & Ha' & Hr').
  exists p, (Z.of_nat k). split; [done|].
  rewrite !compute_levels_lookup by lia.
  rewrite (level_of_ancestor k p r) by done. split; [done|].
  rewrite (level_of_ancestor k' i r') by done. do 2 f_equal.
  destruct k' as [|k'].
  - simpl in Ha'. injection Ha' as <-. rewrite Hp in Hr'.
    injection Hr' as Hr'. lia.
  - simpl in Ha'. rewrite Hpar in Ha'. simpl in Ha'.
    pose proof (level_of_ancestor k p r (S (k + k')) Ha Hr ltac:(lia)) as H1.
    pose proof (level_of_ancestor k' p r' (S (k + k')) Ha' Hr' ltac:(lia)) as H2.
    lia.
Qed.
End Levels.

Section Morphology.
Context {F : Type} {SF : Scalar F} {Channels : Type}.
Implicit Types self : @Cell F Channels.

Variable _compute_num_kids : list Z -> result (list Z).
Variable compute_branches_in_level : list Z -> result (list (list Z)).
Variable _compute_index_of_kid : list Z -> result (list Z).
Variable cum_indizes_of_kids : list (list Z) -> Z -> list Z -> result (list (list Z)).

(** C9. For a valid [parents] array (length nbranches, branch 0
    unparented with value -1, all other values in range, cycle-free), the
    levels that [init_morph] stores put the root at level 0 and every
    non-root branch strictly above its parent. *)
Theorem levels_increase_along_parents self self1 :
  valid_parents (parents self) (nbranches self) ->
  init_morph _compute_num_kids compute_branches_in_level _compute_index_of_kid
             cum_indizes_of_kids self = Returned tt self1 ->
  exists lv,
    holds (levels self1) lv /\
    length lv = nbranches self /\
    lv !! 0 = Some 0%Z /\
    (forall i, 1 <= i < nbranches self ->
       exists p lp li,
         parents self !! i = Some (Z.of_nat p) /\
         lv !! p = Some lp /\ lv !! i = Some li /\ (lp < li)%Z).
Proof.
  intros Hvalid Hm.
  destruct (init_morph_Returned _ _ _ _ _ _ Hm) as (nk & bil & pil & kid & _ & ->).
  pose proof Hvalid as (Hlen & _). rewrite <- Hlen in Hvalid |- *.
  exists (compute_levels (parents self)). split_and!.
  - done.
  - unfold compute_levels. by rewrite length_fmap, length_seq.
  - by apply compute_levels_root.
  - intros i Hi.
    destruct (compute_levels_parent _ Hvalid i Hi) as (p & lp & Hp & Hlp & Hli).
    exists p, lp, (lp + 1)%Z. split_and!; [done|done|done|lia].
Qed.
End Morphology.

(** ** [init_branch_conds] returns *)

Section Totality.
Context {F : Type} {SF : Scalar F} {Channels : Type}.
Implicit Types self : @Cell F Channels.

Lemma jnp_get_total {A : Type} (l : list A) (i : Z) :
  0 < length l -> exists x, jnp_get l i = Ok x.
Proof.
  intros Hl. unfold jnp_get.
  destruct (lookup_lt_is_Some_2 l (clip_index (length l) i)) as [x Hx].
  - unfold clip_index. lia.
  - exists x. by rewrite Hx.
Qed.


Lemma foldM_total {A B : Type} (f : A -> B -> result A) (l : list B) (a : A) :
  (forall a b, exists a', f a b = Ok a') -> exists a', foldM f l a = Ok a'.
Proof.
  intros Hf. revert a. induction l as [|b l IH]; intros a; simpl; [by eexists|].
  destruct (Hf a b) as [a' Ha']. rewrite Ha'. simpl. apply IH.
Qed.

Lemma reshape_Ok {A : Type} (v : list A) rows cols :
  length v = rows * cols -> jnp_reshape v rows cols = Ok (chunks rows cols v).
Proof. intros Hv. unfold jnp_reshape. by rewrite decide_True. Qed.


End Totality.

(** * Concrete runs

    On the cells of [Examples], over exact rationals. *)

Import Examples.

Lemma two_branches_parents_in_range : parents_in_range two_branches.
Proof. split; [reflexivity|]. repeat constructor; simpl; lia. Defined.

Lemma fork_parents_in_range : parents_in_range fork.
Proof. split; [reflexivity|]. repeat constructor; simpl; lia. Defined.

(** C1, as worded, fails on [two_branches]: the backward conductance of the
    junction is 625000, and the formula with the resistivity of its compartment
    a gives 1/2 or 1/32, converted 5000000 or 312500. *)
Lemma source_resistivity_fails :
  ~ source_resistivity two_branches (after (init_branch_conds two_branches)).
Proof.
  intros Hclaim.
  specialize (Hclaim 1 0 (mkGeometry 1 1 1)%Q (mkGeometry 2 4 2)%Q
                     [0; 625000]%Q 625000%Q).
  destruct Hclaim as [H|[H|[H|H]]]; try (vm_compute in H; discriminate H).
  - vm_compute. lia.
  - reflexivity.
  - reflexivity.
  - reflexivity.
  - left. reflexivity.
  - reflexivity.
Qed.

Lemma junction_conds_use_target_resistivity_witness :
  init_branch_conds two_branches = Returned tt (after (init_branch_conds two_branches))
  /\ parents_in_range two_branches
  /\ exists bwd fwd,
       holds (branch_conds_bwd (after (init_branch_conds two_branches))) bwd /\
       holds (branch_conds_fwd (after (init_branch_conds two_branches))) fwd /\
       bwd !! 1 = Some (to_mS_per_cm2 (2 ⊗ 1 ^^ 2 ⊘ 1 ⊘ (1 ^^ 2 ⊗ 4 ⊕ 2 ^^ 2 ⊗ 1) ⊘ 4)%py)%Q /\
       fwd !! 1 = Some (to_mS_per_cm2 (1 ⊗ 2 ^^ 2 ⊘ 2 ⊘ (2 ^^ 2 ⊗ 1 ⊕ 1 ^^ 2 ⊗ 4) ⊘ 1)%py)%Q.
Proof.
  assert (init_branch_conds two_branches
          = Returned tt (after (init_branch_conds two_branches))) as Hinit
    by (vm_compute; reflexivity).
  split; [exact Hinit|]. split; [exact two_branches_parents_in_range|].
  destruct (junction_conds_use_target_resistivity _ _ Hinit two_branches_parents_in_range)
    as [_ Hj].
  destruct (Hj 1 ltac:(vm_compute; lia))
    as (p & child & par & bwd & fwd & Hp & Hc & Hpa & Hb & Hf & Hbi & Hfi).
  vm_compute in Hp. destruct p as [|p]; [|discriminate Hp].
  vm_compute in Hc. injection Hc as <-. vm_compute in Hpa. injection Hpa as <-.
  exists bwd, fwd. split_and!; [exact Hb|exact Hf|exact Hbi|exact Hfi].
Defined.

(** C2, as worded, fails on [two_branches_uniform]: the backward
    conductance is 625000, the formula from the last compartment of the
    child to the first of the parent gives 5000000. *)
Lemma bwd_child_to_parent_fails :
  ~ bwd_child_to_parent two_branches_uniform
      (after (init_branch_conds two_branches_uniform)).
Proof.
  intros Hclaim.
  destruct (Hclaim 1 0 (mkGeometry 1 1 1)%Q (mkGeometry 2 4 1)%Q)
    as (bwd & fwd & Hb & _ & Hbi & _).
  - vm_compute. lia.
  - reflexivity.
  - reflexivity.
  - reflexivity.
  - vm_compute in Hb. injection Hb as <-. vm_compute in Hbi. discriminate Hbi.
Qed.

Lemma junction_conds_directions_witness :
  init_branch_conds two_branches_uniform
  = Returned tt (after (init_branch_conds two_branches_uniform))
  /\ parents_in_range two_branches_uniform
  /\ 1 <= 1 < nbranches two_branches_uniform
  /\ parents two_branches_uniform !! 1 = Some (Z.of_nat 0)
  /\ compartment two_branches_uniform 1 (nseg two_branches_uniform - 1)
     = Some (mkGeometry 1 1 1)%Q
  /\ compartment two_branches_uniform 0 0 = Some (mkGeometry 2 4 1)%Q
  /\ exists bwd fwd,
       holds (branch_conds_bwd (after (init_branch_conds two_branches_uniform))) bwd /\
       holds (branch_conds_fwd (after (init_branch_conds two_branches_uniform))) fwd /\
       bwd !! 1
       = Some (to_mS_per_cm2
                 (coupling (mkGeometry 2 4 1) (mkGeometry 1 1 1) 1))%Q /\
       fwd !! 1
       = Some (to_mS_per_cm2
                 (coupling (mkGeometry 1 1 1) (mkGeometry 2 4 1) 1))%Q.
Proof.
  assert (init_branch_conds two_branches_uniform
          = Returned tt (after (init_branch_conds two_branches_uniform))) as Hinit
    by (vm_compute; reflexivity).
  assert (parents_in_range two_branches_uniform) as Hpar
    by (split; [reflexivity|repeat constructor; simpl; lia]).
  assert (1 <= 1 < nbranches two_branches_uniform) as Hi by (vm_compute; lia).
  refine (conj Hinit (conj Hpar (conj Hi (conj eq_refl (conj eq_refl (conj eq_refl _)))))).
  exact (junction_conds_directions two_branches_uniform _ 1 0
           (mkGeometry 1 1 1)%Q (mkGeometry 2 4 1)%Q
           Hinit Hpar Hi eq_refl eq_refl eq_refl).
Defined.

(** C3, as worded, fails on [chain]: the one entry of branch 1 receives the
    forward conductance of branch 1 and the backward conductance of its
    child, 10000000 in all, not the forward conductance alone. *)
Lemma separate_increments_fails :
  ~ separate_increments chain (after (init_branch_conds chain)).
Proof.
  intros Hclaim.
  destruct (Hclaim [0; 5000000; 5000000]%Q [0; 5000000; 5000000]%Q eq_refl eq_refl)
    as (Hfwd & _ & _).
  specialize (Hfwd 1 0%Q 5000000%Q ltac:(vm_compute; lia) eq_refl eq_refl).
  vm_compute in Hfwd. discriminate Hfwd.
Qed.

Lemma fork_summed_shape :
  has_shape (summed_coupling_conds fork) (nbranches fork) (nseg fork).
Proof. split; [reflexivity|]. repeat constructor. Defined.

Lemma summed_coupling_conds_accumulates_witness :
  init_branch_conds fork = Returned tt (after (init_branch_conds fork))
  /\ parents_in_range fork
  /\ has_shape (summed_coupling_conds fork) (nbranches fork) (nseg fork)
  /\ entry (summed_coupling_conds (after (init_branch_conds fork))) 0 0
     = Some 10000000%Q
  /\ entry (summed_coupling_conds (after (init_branch_conds fork))) 1 1
     = Some 5000000%Q
  /\ entry (summed_coupling_conds (after (init_branch_conds fork))) 0 1 = Some 0%Q.
Proof.
  assert (init_branch_conds fork = Returned tt (after (init_branch_conds fork))) as Hinit
    by (vm_compute; reflexivity).
  split_and!; [exact Hinit|exact fork_parents_in_range|exact fork_summed_shape|..];
    destruct (summed_coupling_conds_accumulates fork _ Hinit fork_parents_in_range
                fork_summed_shape) as (fwd & bwd & Hf & Hb & _ & Hsep);
    destruct (Hsep ltac:(vm_compute; lia)) as (Hlast & Hfirst & Hother);
    vm_compute in Hf; injection Hf as <-; vm_compute in Hb; injection Hb as <-.
  - exact (Hfirst 0 0%Q eq_refl).
  - exact (Hlast 1 0%Q 5000000%Q ltac:(vm_compute; lia) eq_refl eq_refl).
  - refine (Hother 0 1 0%Q _ _ eq_refl); [intros [? _]; lia|lia].
Defined.

(** C5, as worded, fails on [fork]: the second call of [init_branch_conds]
    doubles what the first call added to [summed_coupling_conds]. *)
Lemma second_call_is_noop_fails : ~ second_call_is_noop init_branch_conds fork.
Proof.
  intros Hclaim.
  assert (init_branch_conds fork = Returned tt (after (init_branch_conds fork))) as Hinit
    by (vm_compute; reflexivity).
  specialize (Hclaim _ Hinit).
  apply (f_equal (fun o => entry (summed_coupling_conds (after o)) 0 0)) in Hclaim.
  vm_compute in Hclaim. discriminate Hclaim.
Qed.

Lemma second_initialisation_witness :
  init_morph num_kids_of one_level index_of_kid kid_table fork
  = Returned tt (after (init_morph num_kids_of one_level index_of_kid kid_table fork))
  /\ init_branch_conds fork = Returned tt (after (init_branch_conds fork))
  /\ init_morph num_kids_of one_level index_of_kid kid_table
       (after (init_morph num_kids_of one_level index_of_kid kid_table fork))
     = Returned tt (after (init_morph num_kids_of one_level index_of_kid kid_table fork))
  /\ exists conds2,
       init_branch_conds (after (init_branch_conds fork)) = Returned tt conds2 /\
       branch_conds_fwd conds2 = branch_conds_fwd (after (init_branch_conds fork)) /\
       branch_conds_bwd conds2 = branch_conds_bwd (after (init_branch_conds fork)) /\
       summed_coupling_conds conds2
       = [[20000000; 0]; [0; 10000000]; [0; 10000000]]%Q.
Proof.
  assert (init_morph num_kids_of one_level index_of_kid kid_table fork
          = Returned tt (after (init_morph num_kids_of one_level index_of_kid
                                           kid_table fork))) as Hm
    by (vm_compute; reflexivity).
  assert (init_branch_conds fork = Returned tt (after (init_branch_conds fork))) as Hc
    by (vm_compute; reflexivity).
  destruct (second_initialisation num_kids_of one_level index_of_kid kid_table
              fork _ _ Hm Hc)
    as (Hm2 & conds2 & fwd & bwd & Hc2 & Hf & Hb & _ & _ & _ & Hfw & Hbw & Hs).
  split_and!; [exact Hm|exact Hc|exact Hm2|].
  exists conds2. split_and!; [exact Hc2|exact Hf|exact Hb|].
  vm_compute in Hfw. injection Hfw as <-. vm_compute in Hbw. injection Hbw as <-.
  remember (summed_coupling_conds conds2) as summed2 eqn:Heq. clear Heq.
  vm_compute in Hs. injection Hs as <-. reflexivity.
Defined.

Lemma step_before_init_branch_conds_witness :
  base_branch_conds_fwd
    (fresh (params_of [1; 1; 1; 1; 1; 1] [1; 1; 1; 1; 1; 1] [1; 1; 1; 1; 1; 1])%Q)
  = Unset
  /\ Cell__init__
       (fresh (params_of [1; 1; 1; 1; 1; 1] [1; 1; 1; 1; 1; 1] [1; 1; 1; 1; 1; 1])%Q)
       [branch 2; branch 2; branch 2] [-1; 0; 0]%Z
     = Ok fork
  /\ step no_channels no_input hold_voltages
          (<["voltages" := [1; 2; 3; 4; 5; 6]%Q]> ∅) 1%Q [] [] fork
     = Raised AssertionError fork
  /\ initialized_conds fork = false.
Proof.
  assert (Cell__init__
            (fresh (params_of [1; 1; 1; 1; 1; 1] [1; 1; 1; 1; 1; 1] [1; 1; 1; 1; 1; 1])%Q)
            [branch 2; branch 2; branch 2] [-1; 0; 0]%Z
          = Ok fork) as Hc by (vm_compute; reflexivity).
  destruct (step_before_init_branch_conds no_channels no_input hold_voltages
              (fresh (params_of [1; 1; 1; 1; 1; 1] [1; 1; 1; 1; 1; 1]
                                [1; 1; 1; 1; 1; 1])%Q)
              _ _ fork (<["voltages" := [1; 2; 3; 4; 5; 6]%Q]> ∅) 1%Q [] []
              eq_refl Hc) as (Hstep & Hflag & _).
  split_and!; [reflexivity|exact Hc|exact Hstep|exact Hflag].
Defined.

Lemma branch_conds_zero_padded_witness :
  0 < nbranches fork
  /\ init_branch_conds fork = Returned tt (after (init_branch_conds fork))
  /\ exists fwd bwd,
       holds (branch_conds_fwd (after (init_branch_conds fork))) fwd /\
       holds (branch_conds_bwd (after (init_branch_conds fork))) bwd /\
       length fwd = 3 /\ length bwd = 3 /\
       fwd !! 0 = Some 0%Q /\ bwd !! 0 = Some 0%Q.
Proof.
  assert (0 < nbranches fork) as Hpos by (vm_compute; lia).
  assert (init_branch_conds fork = Returned tt (after (init_branch_conds fork))) as Hinit
    by (vm_compute; reflexivity).
  split; [exact Hpos|]. split; [exact Hinit|].
  destruct (branch_conds_zero_padded fork _ Hpos Hinit)
    as (fwd & bwd & Hf & Hb & Hlf & Hlb & Hf0 & Hb0 & _).
  exists fwd, bwd. split_and!; [exact Hf|exact Hb|exact Hlf|exact Hlb|exact Hf0|exact Hb0].
Defined.

Lemma junction_conds_converted_once_witness :
  init_branch_conds two_branches = Returned tt (after (init_branch_conds two_branches))
  /\ junction_conds two_branches = Ok ([1 # 16], [1 # 4])%Q
  /\ branch_conds_bwd (after (init_branch_conds two_branches)) = Val [0; 625000]%Q
  /\ branch_conds_fwd (after (init_branch_conds two_branches)) = Val [0; 2500000]%Q
  /\ exists fwd bwd,
       holds (branch_conds_fwd (after (init_branch_conds two_branches))) (0%Q :: fwd) /\
       holds (branch_conds_bwd (after (init_branch_conds two_branches))) (0%Q :: bwd) /\
       fwd !! 0 = Some ((1 # 4) ⊗ of_int (10 ^ 7))%py%Q /\
       bwd !! 0 = Some ((1 # 16) ⊗ of_int (10 ^ 7))%py%Q.
Proof.
  assert (init_branch_conds two_branches
          = Returned tt (after (init_branch_conds two_branches))) as Hinit
    by (vm_compute; reflexivity).
  split_and!; [exact Hinit|vm_compute; reflexivity|reflexivity|reflexivity|].
  destruct (junction_conds_converted_once two_branches _ Hinit)
    as (raw_bwd & raw_fwd & fwd & bwd & Hj & Hf & Hb & _ & _ & Hkf & Hkb & _).
  vm_compute in Hj. injection Hj as <- <-.
  exists fwd, bwd. split_and!; [exact Hf|exact Hb|exact (Hkf 0 _ eq_refl)|exact (Hkb 0 _ eq_refl)].
Defined.

Lemma reshape_flatten_roundtrip_witness :
  length [1; 2; 3; 4; 5; 6]%Q = 3 * 2
  /\ exists m,
       jnp_reshape [1; 2; 3; 4; 5; 6]%Q 3 2 = Ok m /\
       has_shape m 3 2 /\
       flatten m = [1; 2; 3; 4; 5; 6]%Q /\
       jnp_reshape (flatten m) 3 2 = Ok m.
Proof.
  split; [reflexivity|].
  exact (reshape_flatten_roundtrip 3 2 [1; 2; 3; 4; 5; 6]%Q eq_refl).
Defined.

Lemma unordered_valid_parents : valid_parents (parents unordered) (nbranches unordered).
Proof.
  split_and!; [reflexivity|reflexivity|repeat constructor; simpl; lia|].
  repeat constructor; intros H; vm_compute in H; discriminate H.
Defined.

Lemma levels_increase_along_parents_witness :
  valid_parents (parents unordered) (nbranches unordered)
  /\ init_morph num_kids_of one_level index_of_kid kid_table unordered
     = Returned tt (after (init_morph num_kids_of one_level index_of_kid kid_table
                                      unordered))
  /\ levels (after (init_morph num_kids_of one_level index_of_kid kid_table unordered))
     = Val [0; 2; 1]%Z
  /\ exists lv,
       holds (levels (after (init_morph num_kids_of one_level index_of_kid kid_table
                                        unordered))) lv /\
       lv !! 0 = Some 0%Z /\
       exists lp li, lv !! 2 = Some lp /\ lv !! 1 = Some li /\ (lp < li)%Z.
Proof.
  assert (init_morph num_kids_of one_level index_of_kid kid_table unordered
          = Returned tt (after (init_morph num_kids_of one_level index_of_kid
                                           kid_table unordered))) as Hm
    by (vm_compute; reflexivity).
  split_and!; [exact unordered_valid_parents|exact Hm|reflexivity|].
  destruct (levels_increase_along_parents num_kids_of one_level index_of_kid kid_table
              unordered _ unordered_valid_parents Hm) as (lv & Hlv & _ & Hroot & Hup).
  destruct (Hup 1 ltac:(vm_compute; lia)) as (p & lp & li & Hp & Hlp & Hli & Hlt).
  change (Some 2%Z = Some (Z.of_nat p)) in Hp. injection Hp as Hp.
  assert (p = 2) as -> by lia.
  exists lv. split_and!; [exact Hlv|exact Hroot|]. by exists lp, li.
Defined.

(** C10, as worded, fails on [fork]: [init_morph] is not bound on the
    instance, and its lookup finds the method of the class without reaching
    [__getattr__]. *)
Lemma unset_attribute_asserts_fails : ~ unset_attribute_asserts [] fork.
Proof.
  intros Hclaim. specialize (Hclaim "init_morph" eq_refl).
  vm_compute in Hclaim. discriminate Hclaim.
Qed.

Lemma getattr_unbound_witness :
  assoc "levels" (instance_dict fork) = None
  /\ ("levels" ∉ Cell_class)
  /\ ("levels" ∉ module_names)
  /\ getattr module_names fork "levels" = Raise AssertionError
  /\ getattr module_names fork "branch" = Ok (ABranchView fork (nodes fork)).
Proof.
  assert (forall key, bool_decide (key ∈ Cell_class) = false -> key ∉ Cell_class) as Hc
    by (intros key Hk Hin; by rewrite bool_decide_eq_true_2 in Hk).
  assert (forall key, bool_decide (key ∈ module_names) = false -> key ∉ module_names) as Hn
    by (intros key Hk Hin; by rewrite bool_decide_eq_true_2 in Hk).
  split_and!; [reflexivity|by apply Hc|by apply Hn|..].
  - exact (getattr_unbound module_names fork "levels" eq_refl
             (Hc "levels" eq_refl) (Hn "levels" eq_refl)).
  - exact (getattr_unbound module_names fork "branch" eq_refl
             (Hc "branch" eq_refl) (Hn "branch" eq_refl)).
Defined.

(** * Further properties of the module *)

Section Construction.
Context {F : Type} {SF : Scalar F} {Channels : Type}.
Implicit Types self : @Cell F Channels.

Lemma Cell__init___Ok base (bs : list (@Branch F Channels)) ps self :
  Cell__init__ base bs ps = Ok self ->
  exists b0,
    bs !! 0 = Some b0 /\
    nseg self = Branch_nseg b0 /\
    nbranches self = length bs /\
    nodes self
    = {| comp_index := arange 0 (Z.of_nat (Branch_nseg b0 * length bs));
         branch_index :=
           (fun i => (i `div` Z.of_nat (Branch_nseg b0))%Z)
             <$> arange 0 (Z.of_nat (Branch_nseg b0 * length bs));
         cell_index := replicate (Branch_nseg b0 * length bs) 0%Z |} /\
    coupling_conds_bwd self = Branch_coupling_conds_bwd <$> bs /\
    coupling_conds_fwd self = Branch_coupling_conds_fwd <$> bs /\
    summed_coupling_conds self = Branch_summed_coupling_conds <$> bs.
Proof.
  unfold Cell__init__. intros Hc.
  destruct (bs !! 0) as [b0|] eqn:Hb0; [|discriminate]. simpl in Hc.
  assert (forall (rows m : list (list F)), jnp_asarray2 rows = Ok m -> m = rows) as Hrows.
  { intros rows m. unfold jnp_asarray2. destruct rows; [by intros [= <-]|].
    case_decide; [by intros [= <-]|discriminate]. }
  ok_inv Hc. subst self. simpl.
  apply Hrows in Ha, Ha0, Ha1. subst. by exists b0.
Qed.

Lemma jnp_asarray2_shape {A : Type} (rows m : list (list A)) :
  jnp_asarray2 rows = Ok m -> exists cols, has_shape m (length rows) cols.
Proof.
  unfold jnp_asarray2. destruct rows as [|r rows]; [intros [= <-]; by exists 0|].
  case_decide as Hall; [|discriminate]. intros [= <-]. by exists (length r).
Qed.

(** X1. The node table that [__init__] builds has one row per compartment,
    nseg * nbranches in all; row [b * nseg + c], for compartment [c] of
    branch [b], holds that very number as [comp_index], [b] as
    [branch_index] and 0 as [cell_index]. *)
Theorem nodes_index_compartments base (bs : list (@Branch F Channels)) ps self :
  Cell__init__ base bs ps = Ok self ->
  length (comp_index (nodes self)) = nseg self * nbranches self /\
  length (branch_index (nodes self)) = nseg self * nbranches self /\
  length (cell_index (nodes self)) = nseg self * nbranches self /\
  (forall b c, b < nbranches self -> c < nseg self ->
     comp_index (nodes self) !! (b * nseg self + c)
     = Some (Z.of_nat (b * nseg self + c)) /\
     branch_index (nodes self) !! (b * nseg self + c) = Some (Z.of_nat b) /\
     cell_index (nodes self) !! (b * nseg self + c) = Some 0%Z).
Proof.
  intros Hc. destruct (Cell__init___Ok _ _ _ _ Hc) as (b0 & _ & Hn & Hb & Hnodes & _).
  rewrite Hnodes, Hn, Hb. simpl. unfold arange.
  rewrite length_fmap, length_seqZ, length_replicate.
  split_and!; try lia. intros b c Hlt Hc'.
  assert (b * Branch_nseg b0 + c < Branch_nseg b0 * length bs) as Hk by nia.
  rewrite list_lookup_fmap, lookup_seqZ_lt by lia. simpl.
  split_and!.
  - by rewrite Z.add_0_l.
  - rewrite Z.add_0_l, Nat2Z.inj_add, Nat2Z.inj_mul.
    rewrite Z.div_add_l by lia. rewrite Z.div_small by lia. f_equal; lia.
  - by apply lookup_replicate_2.
Qed.

(** X2. [__init__] raises IndexError on an empty list of branches. When it
    returns, the cell has as many branches as the list, the nseg of the
    first one, both flags False, and its three conductance arrays hold the
    arrays of the branches row by row, each being rectangular with
    nbranches rows. *)
Theorem Cell__init___rows base (bs : list (@Branch F Channels)) ps :
  (bs = [] -> Cell__init__ base bs ps = Raise IndexError) /\
  (forall self, Cell__init__ base bs ps = Ok self ->
     nbranches self = length bs /\
     (exists b0, bs !! 0 = Some b0 /\ nseg self = Branch_nseg b0) /\
     initialized_morph self = false /\ initialized_conds self = false /\
     (forall b br, bs !! b = Some br ->
        coupling_conds_bwd self !! b = Some (Branch_coupling_conds_bwd br) /\
        coupling_conds_fwd self !! b = Some (Branch_coupling_conds_fwd br) /\
        summed_coupling_conds self !! b = Some (Branch_summed_coupling_conds br)) /\
     (exists c1 c2 c3,
        has_shape (coupling_conds_bwd self) (nbranches self) c1 /\
        has_shape (coupling_conds_fwd self) (nbranches self) c2 /\
        has_shape (summed_coupling_conds self) (nbranches self) c3)).
Proof.
  split; [by intros ->|]. intros self Hc.
  destruct (Cell__init___Ok _ _ _ _ Hc) as (b0 & Hb0 & Hn & Hb & _ & H1 & H2 & H3).
  destruct (Cell__init___nbranches _ _ _ _ Hc) as (_ & _ & _ & _ & Hi & Hm).
  split_and!; [done|by exists b0|done|done|..].
  - intros b br Hbr. rewrite H1, H2, H3, !list_lookup_fmap, Hbr. done.
  - unfold Cell__init__ in Hc. rewrite Hb0 in Hc. simpl in Hc. ok_inv Hc.
    destruct (jnp_asarray2_shape _ _ Ha) as [c1 Hc1].
    destruct (jnp_asarray2_shape _ _ Ha0) as [c2 Hc2].
    destruct (jnp_asarray2_shape _ _ Ha1) as [c3 Hc3].
    rewrite length_fmap in Hc1, Hc2, Hc3. subst self. simpl.
    exists c1, c2, c3. done.
Qed.
End Construction.

Section AssemblyBehaviour.
Context {F : Type} {SF : Scalar F} {Channels : Type}.
Implicit Types self : @Cell F Channels.

Lemma foldM_add_junction_shape (ps : list Z) (fwd bwd : list F) bs m m' rows cols :
  has_shape m rows cols ->
  foldM (add_junction ps fwd bwd) bs m = Ok m' ->
  has_shape m' rows cols.
Proof.
  revert m. induction bs as [|b bs IH]; intros m Hm Hf; simpl in Hf.
  - by injection Hf as <-.
  - apply bind_Ok in Hf as (m1 & Hadd & Hf). apply (IH m1); [|done].
    unfold add_junction in Hadd. ok_inv Hadd. subst m1. by do 2 apply at_add_shape.
Qed.

(** Once the junction conductances are computed, the loop cannot raise. *)
Lemma junction_loop_returns self bwd fwd (summed : list (list F)) :
  junction_conds self = Ok (bwd, fwd) ->
  exists summed',
    foldM (add_junction (parents self) (imul_int fwd (10 ^ 7)) (imul_int bwd (10 ^ 7)))
          (arange 1 (Z.of_nat (nbranches self))) summed
    = Ok summed'.
Proof.
  intros Hj. destruct (junction_conds_length _ _ _ Hj) as [Hlb Hlf].
  destruct (decide (2 <= nbranches self)) as [Hnb|Hnb].
  - assert (0 < length (parents self)) as Hpar.
    { unfold junction_conds in Hj. ok_inv Hj.
      destruct (traverse_lookup _ _ _ 0 1%Z Ha6) as (q & _ & Hq).
      - unfold arange. rewrite lookup_seqZ_lt by lia. done.
      - by apply jnp_get_nonempty in Hq. }
    apply foldM_total. intros m b. unfold add_junction.
    destruct (jnp_get_total (imul_int fwd (10 ^ 7)) (b - 1)) as [f ->];
      [unfold imul_int; rewrite length_fmap; lia|].
    destruct (jnp_get_total (parents self) b Hpar) as [p ->].
    destruct (jnp_get_total (imul_int bwd (10 ^ 7)) (b - 1)) as [g ->];
      [unfold imul_int; rewrite length_fmap; lia|].
    simpl. by eexists.
  - assert (arange 1 (Z.of_nat (nbranches self)) = []) as ->
      by (unfold arange; apply seqZ_nil; lia).
    simpl. by eexists.
Qed.

(** X3. [init_branch_conds] is all or nothing: when it raises, it raises
    while reading the parameters and gathering the compartments, before its
    first assignment, and the instance is exactly as it was. *)
Theorem init_branch_conds_raises_unchanged self e self' :
  init_branch_conds self = Raised e self' ->
  self' = self /\ junction_conds self = Raise e.
Proof.
  unfold init_branch_conds, method_bind, attr, lift, assign.
  destruct (junction_conds self) as [e'|[bwd fwd]] eqn:Hj.
  - by intros [= -> <-].
  - destruct (junction_loop_returns self bwd fwd (summed_coupling_conds self) Hj)
      as [summed Hs].
    destruct self; simpl in *. rewrite Hs. discriminate.
Qed.

(** X5. When one of the three parameter arrays is missing from [params]
    (and those present have nbranches * nseg entries), [init_branch_conds]
    raises KeyError and leaves the instance as it was. *)
Theorem init_branch_conds_missing_key self :
  (forall key v, key ∈ ["axial_resistivity"; "radius"; "length"] ->
     params self !! key = Some v -> length v = nbranches self * nseg self) ->
  (exists key, key ∈ ["axial_resistivity"; "radius"; "length"] /\
               params self !! key = None) ->
  init_branch_conds self = Raised KeyError self.
Proof.
  intros Hsize (key & Hkey & Hnone).
  assert (junction_conds self = Raise KeyError) as Hj.
  { unfold junction_conds, dict_get.
    destruct (params self !! "axial_resistivity") as [ar|] eqn:Har; [|done]. simpl.
    rewrite (reshape_Ok ar) by (apply (Hsize "axial_resistivity"); [repeat constructor|done]).
    simpl.
    destruct (params self !! "radius") as [rd|] eqn:Hrd; [|done]. simpl.
    rewrite (reshape_Ok rd) by (apply (Hsize "radius"); [repeat constructor|done]). simpl.
    destruct (params self !! "length") as [ln|] eqn:Hln; [|done].
    exfalso. apply list_elem_of_In in Hkey. simpl in Hkey.
    destruct Hkey as [<-|[<-|[<-|[]]]]; congruence. }
  unfold init_branch_conds, method_bind, attr, lift. by rewrite Hj.
Qed.

(** X6. A call of [init_branch_conds] that returns keeps the shape of
    [summed_coupling_conds], sets [initialized_conds], and touches nothing
    but the sums and the two junction arrays: the morphology, the
    parameters, the intra-branch conductances and [initialized_morph] are as
    before. *)
Theorem init_branch_conds_frame self self' rows cols :
  init_branch_conds self = Returned tt self' ->
  has_shape (summed_coupling_conds self) rows cols ->
  has_shape (summed_coupling_conds self') rows cols /\
  initialized_conds self' = true /\
  initialized_morph self' = initialized_morph self /\
  branches self' = branches self /\ nseg self' = nseg self /\
  nbranches self' = nbranches self /\ parents self' = parents self /\
  nodes self' = nodes self /\ params self' = params self /\
  coupling_conds_bwd self' = coupling_conds_bwd self /\
  coupling_conds_fwd self' = coupling_conds_fwd self /\
  num_kids self' = num_kids self /\ levels self' = levels self /\
  branches_in_each_level self' = branches_in_each_level self /\
  parents_in_each_level self' = parents_in_each_level self /\
  kid_inds_in_each_level self' = kid_inds_in_each_level self.
Proof.
  intros Hinit Hshape.
  destruct (init_branch_conds_Returned _ _ Hinit) as (bwd & fwd & summed & _ & Hf & ->).
  split_and!; try done. simpl. by eapply foldM_add_junction_shape.
Qed.


(** X8. When the two compartments of a junction have the same radius,
    length and axial resistivity, its backward and its forward conductance
    are equal. *)
Theorem junction_conds_symmetric self self' i p g :
  init_branch_conds self = Returned tt self' ->
  parents_in_range self ->
  1 <= i < nbranches self ->
  parents self !! i = Some (Z.of_nat p) ->
  compartment self i (nseg self - 1) = Some g ->
  compartment self p 0 = Some g ->
  exists bwd fwd v,
    holds (branch_conds_bwd self') bwd /\ holds (branch_conds_fwd self') fwd /\
    bwd !! i = Some v /\ fwd !! i = Some v.
Proof.
  intros Hinit Hpar Hi Hp Hc Hpa.
  destruct (init_branch_conds_junction self self' i Hinit Hpar Hi)
    as (p' & child & par & bwd & fwd & H1 & H2 & H3 & H4 & H5 & H6 & H7).
  rewrite Hp in H1. injection H1 as H1. apply Nat2Z.inj in H1. subst p'.
  rewrite Hc in H2. injection H2 as <-. rewrite Hpa in H3. injection H3 as <-.
  by exists bwd, fwd, (to_mS_per_cm2 (coupling g g (resistivity g))).
Qed.

Lemma reshape_read_first_of_last {A : Type} (flat : list A) m rows cols y :
  jnp_reshape flat rows cols = Ok m -> 0 < rows ->
  (jnp_get m (-1) ≫= fun row => jnp_get row 0) = Ok y ->
  0 < cols /\ flat !! ((rows - 1) * cols + 0) = Some y.
Proof.
  intros Hm Hr Hy.
  assert (jnp_get m (-1) = jnp_get m (Z.of_nat (rows - 1))) as Hlast.
  { unfold jnp_reshape in Hm. case_decide; [|discriminate]. injection Hm as <-.
    destruct (lookup_lt_is_Some_2 (chunks rows cols flat) (rows - 1)) as [row Hrow];
      [rewrite chunks_length; lia|].
    rewrite (jnp_get_nat _ _ _ Hrow). apply jnp_get_last.
    by rewrite chunks_length. }
  rewrite Hlast in Hy. apply (reshape_read_first flat m rows cols (rows - 1) y Hm); [lia|done].
Qed.

(** X17. A non-root branch whose entry of [parents] is -1 is not left
    unparented: the index counts from the end, so the branch is joined to
    the first compartment of the last branch, whose geometry enters both of
    its junction conductances. *)
Theorem minus_one_parent_is_last_branch self self' i :
  init_branch_conds self = Returned tt self' ->
  length (parents self) = nbranches self ->
  1 <= i < nbranches self ->
  parents self !! i = Some (-1)%Z ->
  exists child last bwd fwd,
    compartment self i (nseg self - 1) = Some child /\
    compartment self (nbranches self - 1) 0 = Some last /\
    holds (branch_conds_bwd self') bwd /\ holds (branch_conds_fwd self') fwd /\
    bwd !! i = Some (to_mS_per_cm2 (coupling last child (resistivity child))) /\
    fwd !! i = Some (to_mS_per_cm2 (coupling child last (resistivity last))).
Proof.
  intros Hinit Hlen Hi Hp.
  destruct (init_branch_conds_Returned _ _ Hinit) as (bwd & fwd & summed & Hj & _ & ->).
  unfold junction_conds in Hj. ok_inv Hj. subst bwd fwd.
  rename a into ar, a0 into axial_resistivity, a1 into rd, a2 into radiuses,
    a3 into ln, a4 into lengths, a5 into rad1, a6 into pars, a7 into rad2,
    a8 into l1, a9 into l2, a10 into r_a1, a11 into r_a2.
  assert (arange 1 (Z.of_nat (nbranches self)) !! (i - 1) = Some (Z.of_nat i)) as Hk.
  { rewrite arange_lookup by lia. do 2 f_equal. lia. }
  assert (pars !! (i - 1) = Some (-1)%Z) as Hpar.
  { destruct (traverse_lookup _ _ _ _ _ Ha6 Hk) as (q & Hq & Hget).
    rewrite (jnp_get_nat _ _ _ Hp) in Hget. by injection Hget as <-. }
  destruct (traverse_lookup _ _ _ _ _ Ha5 Hk) as (x1 & Hx1 & Hg1).
  destruct (traverse_lookup _ _ _ _ _ Ha7 Hpar) as (x2 & Hx2 & Hg2).
  destruct (traverse_lookup _ _ _ _ _ Ha8 Hk) as (y1 & Hy1 & Hg3).
  destruct (traverse_lookup _ _ _ _ _ Ha9 Hpar) as (y2 & Hy2 & Hg4).
  destruct (traverse_lookup _ _ _ _ _ Ha10 Hk) as (z1 & Hz1 & Hg5).
  destruct (traverse_lookup _ _ _ _ _ Ha11 Hpar) as (z2 & Hz2 & Hg6).
  assert (0 < nbranches self) as Hpos by lia.
  destruct (reshape_read_last _ _ _ _ _ _ Ha2 (proj2 Hi) Hg1) as [Hseg Hr1].
  destruct (reshape_read_first_of_last _ _ _ _ _ Ha2 Hpos Hg2) as [_ Hr2].
  destruct (reshape_read_last _ _ _ _ _ _ Ha4 (proj2 Hi) Hg3) as [_ Hr3].
  destruct (reshape_read_first_of_last _ _ _ _ _ Ha4 Hpos Hg4) as [_ Hr4].
  destruct (reshape_read_last _ _ _ _ _ _ Ha0 (proj2 Hi) Hg5) as [_ Hr5].
  destruct (reshape_read_first_of_last _ _ _ _ _ Ha0 Hpos Hg6) as [_ Hr6].
  apply dict_get_Ok in Ha, Ha1, Ha3.
  exists (mkGeometry x1 y1 z1), (mkGeometry x2 y2 z2). eexists _, _.
  unfold compartment. rewrite !decide_True by lia.
  rewrite Ha, Ha1, Ha3. simpl. rewrite Hr1, Hr2, Hr3, Hr4, Hr5, Hr6. simpl.
  split_and!; [done|done|done|done|..]; rewrite to_mS_per_cm2_imul;
    (apply padded_lookup; [lia|]); unfold coupling; simpl.
  - exact (compute_coupling_cond_lookup rad2 rad1 r_a1 l2 l1 _ _ _ _ _ _
             Hx2 Hx1 Hz1 Hy2 Hy1).
  - exact (compute_coupling_cond_lookup rad1 rad2 r_a2 l1 l2 _ _ _ _ _ _
             Hx1 Hx2 Hz2 Hy1 Hy2).
Qed.
End AssemblyBehaviour.

Section StepBehaviour.
Context {F : Type} {SF : Scalar F} {Channels : Type}.
Implicit Types self : @Cell F Channels.

Variable _compute_num_kids : list Z -> result (list Z).
Variable compute_branches_in_level : list Z -> result (list (list Z)).
Variable _compute_index_of_kid : list Z -> result (list Z).
Variable cum_indizes_of_kids : list (list Z) -> Z -> list Z -> result (list (list Z)).
Variable step_channels :
  gmap string (list F) -> F -> Channels -> gmap string (list F) ->
  result (list (gmap string (list F)) * (list F * list F)).
Variable get_external_input :
  list F -> list Z -> list F -> list F -> list F -> result (list F).
Variable step_voltages : @SolverArgs F -> result (list (list F)).

Local Abbreviation init_morph' :=
  (init_morph _compute_num_kids compute_branches_in_level _compute_index_of_kid
              cum_indizes_of_kids).
Local Abbreviation step' := (step step_channels get_external_input step_voltages).

Lemma attr_Returned {A : Type} (f : @Cell F Channels -> A) self a s :
  attr f self = Returned a s -> a = f self /\ s = self.
Proof. by intros [= <- <-]. Qed.

Lemma read_slot_Returned {A : Type} key (f : @Cell F Channels -> slot A) self a s :
  read_slot key f self = Returned a s ->
  s = self /\ (f self = PyNone /\ a = None \/ exists v, f self = Val v /\ a = Some v).
Proof.
  unfold read_slot. destruct (f self) as [| |v].
  - by destruct (Cell__getattr__ self key).
  - intros [= <- <-]. split; [done|by left].
  - intros [= <- <-]. split; [done|right; by exists v].
Qed.

Lemma first_Ok {A : Type} (l : list A) x : first l = Ok x -> l !! 0 = Some x.
Proof. unfold first. destruct (l !! 0); [|discriminate]. by intros [= ->]. Qed.

(** A run of [step] that returns, read from its first line to its last. *)
Lemma step_Returned self u dt i_inds i_current final self' :
  step' u dt i_inds i_current self = Returned final self' ->
  (branch_conds_fwd self = PyNone /\ init_branch_conds self = Returned tt self'
   \/ (exists f, branch_conds_fwd self = Val f) /\ self' = self) /\
  branch_conds_fwd self' <> Unset /\ branch_conds_bwd self' <> Unset /\
  kid_inds_in_each_level self' <> Unset /\ parents_in_each_level self' <> Unset /\
  branches_in_each_level self' <> Unset /\
  exists v b0 c0 states vt ct fs args out,
    u !! "voltages" = Some v /\
    branches self' !! 0 = Some b0 /\ Branch_compartments b0 !! 0 = Some c0 /\
    step_channels u dt (channels c0) (params self') = Ok (states, (vt, ct)) /\
    states !! 0 = Some fs /\
    jnp_reshape v (nbranches self') (nseg self') = Ok (arg_voltages args) /\
    jnp_reshape vt (nbranches self') (nseg self') = Ok (arg_voltage_terms args) /\
    arg_delta_t args = dt /\ arg_parents args = parents self' /\
    arg_summed_coupling_conds args = summed_coupling_conds self' /\
    step_voltages args = Ok out /\
    final = <["voltages" := flatten out]> fs.
Proof.
  intros H. unfold step in H.
  apply method_bind_Returned in H as (nb & s1 & Hm & H).
  apply attr_Returned in Hm as [-> ->].
  apply method_bind_Returned in H as (ns & s1 & Hm & H).
  apply attr_Returned in Hm as [-> ->].
  apply method_bind_Returned in H as (fwd & s1 & Hfwd & H).
  apply read_slot_Returned in Hfwd as [-> Hfwd].
  apply method_bind_Returned in H as ([] & s2 & Hinit & H).
  apply method_bind_Returned in H as (v & s3 & Hv & H).
  apply lift_Returned in Hv as [Hv ->].
  apply method_bind_Returned in H as (bs & s3 & Hm & H).
  apply attr_Returned in Hm as [-> ->].
  apply method_bind_Returned in H as (pa & s3 & Hm & H).
  apply attr_Returned in Hm as [-> ->].
  apply method_bind_Returned in H as ([states [vt ct]] & s3 & Hch & H).
  apply lift_Returned in Hch as [Hch ->].
  apply method_bind_Returned in H as (i_ext & s3 & Hext & H).
  apply lift_Returned in Hext as [Hext ->].
  apply method_bind_Returned in H as (v2 & s3 & Hv2 & H).
  apply lift_Returned in Hv2 as [Hv2 ->].
  apply method_bind_Returned in H as (vt2 & s3 & Hvt2 & H).
  apply lift_Returned in Hvt2 as [Hvt2 ->].
  apply method_bind_Returned in H as (ct2 & s3 & Hct2 & H).
  apply lift_Returned in Hct2 as [Hct2 ->].
  apply method_bind_Returned in H as (ie2 & s3 & Hie2 & H).
  apply lift_Returned in Hie2 as [Hie2 ->].
  apply method_bind_Returned in H as (cb & s3 & Hm & H).
  apply attr_Returned in Hm as [-> ->].
  apply method_bind_Returned in H as (cf & s3 & Hm & H).
  apply attr_Returned in Hm as [-> ->].
  apply method_bind_Returned in H as (sm & s3 & Hm & H).
  apply attr_Returned in Hm as [-> ->].
  apply method_bind_Returned in H as (bf & s3 & Hbf & H).
  apply read_slot_Returned in Hbf as [-> Hbf].
  apply method_bind_Returned in H as (bb & s3 & Hbb & H).
  apply read_slot_Returned in Hbb as [-> Hbb].
  apply method_bind_Returned in H as (nb & s3 & Hm & H).
  apply attr_Returned in Hm as [-> ->].
  apply method_bind_Returned in H as (ps & s3 & Hm & H).
  apply attr_Returned in Hm as [-> ->].
  apply method_bind_Returned in H as (ki & s3 & Hki & H).
  apply read_slot_Returned in Hki as [-> Hki].
  apply method_bind_Returned in H as (pl & s3 & Hpl & H).
  apply read_slot_Returned in Hpl as [-> Hpl].
  apply method_bind_Returned in H as (bl & s3 & Hbl & H).
  apply read_slot_Returned in Hbl as [-> Hbl].
  apply method_bind_Returned in H as (out & s3 & Hout & H).
  apply lift_Returned in Hout as [Hout ->].
  apply method_bind_Returned in H as (fs & s3 & Hfs & H).
  apply lift_Returned in Hfs as [Hfs ->].
  injection H as <- <-.
  apply bind_Ok in Hch as (b0 & Hb0 & Hch). apply bind_Ok in Hch as (c0 & Hc0 & Hch).
  apply first_Ok in Hb0, Hc0, Hfs. apply dict_get_Ok in Hv.
  assert (nbranches s2 = nbranches self /\ nseg s2 = nseg self) as [Hnb Hns].
  { destruct Hfwd as [[_ ->]|(f & _ & ->)].
    - by destruct (init_branch_conds_Returned _ _ Hinit) as (? & ? & ? & _ & _ & ->).
    - by injection Hinit as <-. }
  rewrite <- Hnb, <- Hns in Hv2, Hvt2.
  split_and!.
  - destruct Hfwd as [[Hn ->]|(f & Hf & ->)].
    + left. done.
    + right. split; [by exists f|]. by injection Hinit as <-.
  - destruct Hbf as [[-> _]|(? & -> & _)]; done.
  - destruct Hbb as [[-> _]|(? & -> & _)]; done.
  - destruct Hki as [[-> _]|(? & -> & _)]; done.
  - destruct Hpl as [[-> _]|(? & -> & _)]; done.
  - destruct Hbl as [[-> _]|(? & -> & _)]; done.
  - match type of Hout with step_voltages ?a = _ =>
      exists v, b0, c0, states, vt, ct, fs, a, out end.
    split_and!; [done|done|done|done|done|exact Hv2|exact Hvt2|done|done|done|exact Hout|done].
Qed.

(** X9. Whether it returns or raises, [init_morph] leaves the conductance
    arrays, the parameters, [parents], the sizes and [initialized_conds] as
    they were. It sets [initialized_morph] only when it returns, after every
    helper has succeeded; a call that raises leaves the flag as it was. *)
Theorem init_morph_frame self :
  (summed_coupling_conds (instance_after (init_morph' self)) = summed_coupling_conds self /\
   coupling_conds_bwd (instance_after (init_morph' self)) = coupling_conds_bwd self /\
   coupling_conds_fwd (instance_after (init_morph' self)) = coupling_conds_fwd self /\
   branch_conds_bwd (instance_after (init_morph' self)) = branch_conds_bwd self /\
   branch_conds_fwd (instance_after (init_morph' self)) = branch_conds_fwd self /\
   params (instance_after (init_morph' self)) = params self /\
   parents (instance_after (init_morph' self)) = parents self /\
   nseg (instance_after (init_morph' self)) = nseg self /\
   nbranches (instance_after (init_morph' self)) = nbranches self /\
   initialized_conds (instance_after (init_morph' self)) = initialized_conds self) /\
  (forall self', init_morph' self = Returned tt self' -> initialized_morph self' = true) /\
  (forall e self', init_morph' self = Raised e self' ->
     initialized_morph self' = initialized_morph self).
Proof.
  unfold init_morph, method_bind, attr, lift, assign.
  destruct (_compute_num_kids (parents self)) as [|nk];
    [by split_and!; try done; intros ? ? [= <- <-]|].
  destruct self; simpl.
  destruct (compute_branches_in_level _) as [|bil]; simpl;
    [by split_and!; try done; intros ? ? [= <- <-]|].
  destruct (traverse _ bil) as [|pil]; simpl;
    [by split_and!; try done; intros ? ? [= <- <-]|].
  destruct (_compute_index_of_kid _) as [|iok]; simpl;
    [by split_and!; try done; intros ? ? [= <- <-]|].
  destruct (traverse (gather iok) bil) as [|ioks]; simpl;
    [by split_and!; try done; intros ? ? [= <- <-]|].
  destruct (cum_indizes_of_kids _ _ _) as [|kid]; simpl;
    [by split_and!; try done; intros ? ? [= <- <-]|].
  split_and!; try done. by intros ? [= <-].
Qed.

(** X10. [init_morph] and [init_branch_conds] commute: running the assembly
    after the indexing gives the instance that running the indexing after
    the assembly gives. *)
Theorem init_morph_init_branch_conds_commute self indexed both :
  init_morph' self = Returned tt indexed ->
  init_branch_conds indexed = Returned tt both ->
  exists assembled,
    init_branch_conds self = Returned tt assembled /\
    init_morph' assembled = Returned tt both.
Proof.
  intros Hm Hc.
  destruct (init_morph_Returned _ _ _ _ _ _ Hm) as (nk & bil & pil & kid & Hh & ->).
  destruct (init_branch_conds_Returned _ _ Hc) as (bwd & fwd & summed & Hj & Hf & ->).
  exists (conds_assembled self (zero :: imul_int bwd (10 ^ 7))
                          (zero :: imul_int fwd (10 ^ 7)) summed).
  split.
  - by apply init_branch_conds_junction_conds.
  - by rewrite (init_morph_helpers _ _ _ _ _ nk bil pil kid).
Qed.

Lemma instance_after_bind {A B : Type} (m : @method F Channels A)
    (k : A -> @method F Channels B) self :
  instance_after (m self) = self ->
  (forall a, m self = Returned a self -> instance_after (k a self) = self) ->
  instance_after (method_bind m k self) = self.
Proof.
  unfold method_bind. destruct (m self) as [a s|e s]; simpl; [|done].
  intros -> Hk. by apply Hk.
Qed.

Lemma instance_after_lift {A : Type} (r : result A) self :
  instance_after (lift r self) = self.
Proof. by destruct r. Qed.

Lemma instance_after_read_slot {A : Type} key (f : @Cell F Channels -> slot A) self :
  instance_after (read_slot key f self) = self.
Proof.
  unfold read_slot. destruct (f self); [|done|done].
  by destruct (Cell__getattr__ self key).
Qed.

(** X11. Once [branch_conds_fwd] holds an array, [step] only reads the
    cell: whether it returns or raises, the instance is as it was. *)
Theorem step_reads_only self u dt i_inds i_current fwd :
  branch_conds_fwd self = Val fwd ->
  instance_after (step' u dt i_inds i_current self) = self.
Proof.
  intros Hfwd. unfold step.
  do 2 (apply instance_after_bind; [done|intros ? _]).
  apply instance_after_bind; [apply instance_after_read_slot|].
  intros f Hf. apply read_slot_Returned in Hf as [_ [[Hn _]|(v & _ & ->)]];
    [congruence|].
  apply instance_after_bind; [done|intros ? _].
  apply instance_after_bind; [apply instance_after_lift|intros ? _].
  do 2 (apply instance_after_bind; [done|intros ? _]).
  apply instance_after_bind; [apply instance_after_lift|intros [states [vt ct]] _].
  do 5 (apply instance_after_bind; [apply instance_after_lift|intros ? _]).
  do 3 (apply instance_after_bind; [done|intros ? _]).
  do 2 (apply instance_after_bind; [apply instance_after_read_slot|intros ? _]).
  do 2 (apply instance_after_bind; [done|intros ? _]).
  do 3 (apply instance_after_bind; [apply instance_after_read_slot|intros ? _]).
  do 2 (apply instance_after_bind; [apply instance_after_lift|intros ? _]).
  done.
Qed.

(** X12. [step] never runs [init_morph]: it can return only on a cell on
    which the three level tables that [init_morph] builds are already
    bound, and on which [branch_conds_fwd] is bound, be it to [None]. *)
Theorem step_needs_init_morph self u dt i_inds i_current final self' :
  step step_channels get_external_input step_voltages u dt i_inds i_current self
  = Returned final self' ->
  branch_conds_fwd self <> Unset /\
  kid_inds_in_each_level self <> Unset /\
  parents_in_each_level self <> Unset /\
  branches_in_each_level self <> Unset.
Proof.
  intros H. destruct (step_Returned _ _ _ _ _ _ _ H)
    as (Hinit & _ & _ & Hki & Hpl & Hbl & _).
  destruct Hinit as [[Hn Hinit]|[[f Hf] ->]].
  - destruct (init_branch_conds_Returned _ _ Hinit) as (? & ? & ? & _ & _ & ->).
    split_and!; [congruence|done|done|done].
  - split_and!; [congruence|done|done|done].
Qed.

(** X13. The state that [step] returns is the first state of
    [step_channels] with its "voltages" replaced: every other key is as the
    channels left it, and "voltages" is the flattened output of the solver,
    which received the voltages of [u] reshaped to (nbranches, nseg). *)
Theorem step_returned_state self u dt i_inds i_current final self' :
  step' u dt i_inds i_current self = Returned final self' ->
  exists v c0 states terms fs args out,
    u !! "voltages" = Some v /\
    step_channels u dt (channels c0) (params self') = Ok (states, terms) /\
    states !! 0 = Some fs /\
    has_shape (arg_voltages args) (nbranches self') (nseg self') /\
    flatten (arg_voltages args) = v /\
    step_voltages args = Ok out /\
    final !! "voltages" = Some (flatten out) /\
    (forall key, key <> "voltages" -> final !! key = fs !! key).
Proof.
  intros H. destruct (step_Returned _ _ _ _ _ _ _ H)
    as (_ & _ & _ & _ & _ & _ & v & b0 & c0 & states & vt & ct & fs & args & out &
        Hv & _ & _ & Hch & Hfs & Hv2 & _ & _ & _ & _ & Hout & ->).
  exists v, c0, states, (vt, ct), fs, args, out.
  unfold jnp_reshape in Hv2. case_decide as Hlen; [|discriminate].
  injection Hv2 as Hv2. rewrite <- Hv2.
  split_and!; [done|done|done|by apply chunks_shape|by apply concat_chunks|done|..].
  - by rewrite lookup_insert_eq.
  - intros key Hkey. by rewrite lookup_insert_ne.
Qed.

(** X14. When [branch_conds_fwd] is bound to [None], the test of line 140
    succeeds and [step] assembles the conductances itself: the instance it
    leaves when it returns is the one [init_branch_conds] returns. *)
Theorem step_assembles_when_None self u dt i_inds i_current final self' :
  branch_conds_fwd self = PyNone ->
  step' u dt i_inds i_current self = Returned final self' ->
  init_branch_conds self = Returned tt self' /\ initialized_conds self' = true.
Proof.
  intros Hn H. destruct (step_Returned _ _ _ _ _ _ _ H) as (Hinit & _).
  destruct Hinit as [[_ Hinit]|[[f Hf] _]]; [|congruence].
  split; [done|].
  by destruct (init_branch_conds_Returned _ _ Hinit) as (? & ? & ? & _ & _ & ->).
Qed.

(** X15. A state [u] without the key "voltages" makes [step] raise KeyError
    before any collaborator is called; on a cell with its conductances
    assembled the instance is left as it was. *)
Theorem step_missing_voltages self u dt i_inds i_current fwd :
  branch_conds_fwd self = Val fwd ->
  u !! "voltages" = None ->
  step step_channels get_external_input step_voltages u dt i_inds i_current self
  = Raised KeyError self.
Proof.
  intros Hfwd Hu. unfold step, method_bind, attr, read_slot, lift, dict_get, method_ret.
  by rewrite Hfwd, Hu.
Qed.
End StepBehaviour.

Section AttributesAfterInit.
Context {F : Type} {SF : Scalar F} {Channels : Type}.
Implicit Types self : @Cell F Channels.
Variable Module_names : list string.

Lemma assoc_app key (d1 d2 : list (string * @attr_value F Channels)) :
  assoc key (d1 ++ d2)
  = match assoc key d1 with Some v => Some v | None => assoc key d2 end.
Proof.
  induction d1 as [|[k v] d1 IH]; simpl; [done|]. by case_decide.
Qed.

Lemma assoc_slot_entry {A : Type} key k (inj : A -> @attr_value F Channels) (s : slot A) :
  k <> key -> assoc key (slot_entry k inj s) = None.
Proof. intros Hk. destruct s; simpl; [done| |]; by rewrite decide_False. Qed.

(** X16. Once [init_branch_conds] has returned, the two junction arrays are
    ordinary attributes of the instance: reading [branch_conds_fwd] or
    [branch_conds_bwd] gives the array, of length nbranches when the cell
    has a branch, and no longer reaches the assertion of [__getattr__]. *)
Theorem getattr_after_init_branch_conds self self' :
  init_branch_conds self = Returned tt self' ->
  exists fwd bwd,
    getattr Module_names self' "branch_conds_fwd" = Ok (AArray fwd) /\
    getattr Module_names self' "branch_conds_bwd" = Ok (AArray bwd) /\
    (0 < nbranches self ->
     length fwd = nbranches self /\ length bwd = nbranches self).
Proof.
  intros Hinit.
  destruct (init_branch_conds_Returned _ _ Hinit) as (bwd & fwd & summed & Hj & _ & ->).
  destruct (junction_conds_length _ _ _ Hj) as [Hlb Hlf].
  exists (zero :: imul_int fwd (10 ^ 7)), (zero :: imul_int bwd (10 ^ 7)).
  split_and!.
  - unfold getattr, instance_dict. simpl.
    by rewrite !assoc_app, !assoc_slot_entry by done.
  - unfold getattr, instance_dict. simpl.
    by rewrite !assoc_app, !assoc_slot_entry by done.
  - intros Hpos. unfold imul_int. rewrite !length_cons, !length_fmap. lia.
Qed.
End AttributesAfterInit.

Section MorphologyBehaviour.
Context {F : Type} {SF : Scalar F} {Channels : Type}.
Local Abbreviation cell := (@Cell F Channels).
Implicit Types self : cell.

Variable _compute_num_kids : list Z -> result (list Z).
Variable compute_branches_in_level : list Z -> result (list (list Z)).
Variable _compute_index_of_kid : list Z -> result (list Z).
Variable cum_indizes_of_kids : list (list Z) -> Z -> list Z -> result (list (list Z)).
Variable step_channels :
  gmap string (list F) -> F -> Channels -> gmap string (list F) ->
  result (list (gmap string (list F)) * (list F * list F)).
Variable get_external_input :
  list F -> list Z -> list F -> list F -> list F -> result (list F).
Variable step_voltages : @SolverArgs F -> result (list (list F)).

Local Abbreviation init_morph' :=
  (init_morph _compute_num_kids compute_branches_in_level _compute_index_of_kid
              cum_indizes_of_kids).
Local Abbreviation step' := (step step_channels get_external_input step_voltages).

Lemma StronglySorted_le_NoDup (l : list Z) :
  StronglySorted Z.le l -> NoDup l -> StronglySorted Z.lt l.
Proof.
  induction l as [|x l IH]; intros Hs Hn; [constructor|].
  apply StronglySorted_inv in Hs as [Hs Hall].
  apply NoDup_cons in Hn as [Hx Hn].
  constructor; [by apply IH|].
  rewrite Forall_forall in Hall |- *. intros y Hy.
  assert (x <> y) by (intros ->; done).
  specialize (Hall y Hy). lia.
Qed.

Lemma jnp_unique_sorted (l : list Z) : StronglySorted Z.lt (jnp_unique l).
Proof.
  unfold jnp_unique. apply StronglySorted_le_NoDup.
  - apply (StronglySorted_merge_sort Z.le).
  - rewrite merge_sort_Permutation. apply NoDup_remove_dups.
Qed.

Lemma jnp_unique_elem_of (l : list Z) (x : Z) : x ∈ jnp_unique l <-> x ∈ l.
Proof.
  unfold jnp_unique. by rewrite merge_sort_Permutation, elem_of_remove_dups.
Qed.

Lemma gather_elem_of {A : Type} (l : list A) (idx : list Z) (g : list A) (x : A) :
  gather l idx = Ok g ->
  x ∈ g <-> exists b, b ∈ idx /\ jnp_get l b = Ok x.
Proof.
  unfold gather. intros Hg. apply traverse_Ok in Hg.
  induction Hg as [|b y idx g Hb Hg IH].
  - split; [by intros ?%elem_of_nil|]. by intros (b & ?%elem_of_nil & _).
  - rewrite elem_of_cons, IH. split.
    + intros [->|(b' & Hb' & Hx)].
      * exists b. split; [by left|done].
      * exists b'. split; [by right|done].
    + intros (b' & Hb' & Hx). apply elem_of_cons in Hb' as [->|Hb'].
      * left. congruence.
      * right. by exists b'.
Qed.

(** X18. After [init_morph], [parents_in_each_level] has one entry per
    level of [branches_in_each_level], and the entry of a level is strictly
    ascending and holds exactly the values [parents[b]] of the branches [b]
    of that level: each parent of the level once. *)
Theorem parents_in_each_level_distinct self self' :
  init_morph' self = Returned tt self' ->
  exists bil pil,
    holds (branches_in_each_level self') bil /\
    holds (parents_in_each_level self') pil /\
    length pil = length bil /\
    forall (l : nat) (c : list Z),
      bil !! l = Some c ->
      exists ps,
        pil !! l = Some ps /\
        StronglySorted Z.lt ps /\
        forall x, x ∈ ps <-> exists b, b ∈ c /\ jnp_get (parents self) b = Ok x.
Proof.
  intros Hm. apply init_morph_Returned in Hm as (nk & bil & pil & kid & Hh & ->).
  destruct Hh as (_ & _ & Hpil & _).
  exists bil, pil. split_and!; [done|done|by eapply traverse_length|].
  intros l c Hc.
  destruct (traverse_lookup _ _ _ _ _ Hpil Hc) as (ps & Hps & Hf).
  exists ps. split; [done|].
  destruct (gather (parents self) c) as [|g] eqn:Hg; [discriminate|].
  injection Hf as <-. split; [apply jnp_unique_sorted|].
  intros x. rewrite jnp_unique_elem_of. by apply gather_elem_of.
Qed.


(** X20. When [branch_conds_fwd] is bound to [None] and the junction
    conductances cannot be computed, [step] raises the error of the lazy
    [init_branch_conds] before it reads the state [u], and the instance is
    unchanged: [branch_conds_fwd] is still [None]. *)
Theorem step_lazy_assembly_raises self u dt i_inds i_current e :
  branch_conds_fwd self = PyNone ->
  junction_conds self = Raise e ->
  step' u dt i_inds i_current self = Raised e self.
Proof.
  intros Hf Hj. unfold step, method_bind, attr, read_slot.
  rewrite Hf. simpl.
  unfold init_branch_conds, method_bind, attr, lift, assign. by rewrite Hj.
Qed.
End MorphologyBehaviour.

(** ** Concrete runs of the further properties *)

Lemma fork_constructed :
  Cell__init__
    (fresh (params_of [1; 1; 1; 1; 1; 1] [1; 1; 1; 1; 1; 1] [1; 1; 1; 1; 1; 1])%Q)
    [branch 2; branch 2; branch 2] [-1; 0; 0]%Z
  = Ok fork.
Proof. vm_compute. reflexivity. Defined.

Lemma fork_assembled :
  init_branch_conds fork = Returned tt (after (init_branch_conds fork)).
Proof. vm_compute. reflexivity. Defined.

Lemma nodes_index_compartments_witness :
  Cell__init__
    (fresh (params_of [1; 1; 1; 1; 1; 1] [1; 1; 1; 1; 1; 1] [1; 1; 1; 1; 1; 1])%Q)
    [branch 2; branch 2; branch 2] [-1; 0; 0]%Z
  = Ok fork
  /\ length (branch_index (nodes fork)) = 6
  /\ branch_index (nodes fork) !! (2 * nseg fork + 1) = Some 2%Z
  /\ comp_index (nodes fork) !! (2 * nseg fork + 1) = Some 5%Z.
Proof.
  destruct (nodes_index_compartments _ _ _ _ fork_constructed) as (_ & Hl & _ & Hrow).
  destruct (Hrow 2 1 ltac:(vm_compute; lia) ltac:(vm_compute; lia)) as (Hc & Hb & _).
  split_and!; [exact fork_constructed|exact Hl|exact Hb|exact Hc].
Defined.

Lemma Cell__init___rows_witness :
  Cell__init__ (fresh ∅) (@nil (@Branch Q unit)) [-1]%Z = Raise IndexError
  /\ nbranches fork = 3
  /\ summed_coupling_conds fork !! 1 = Some (Branch_summed_coupling_conds (branch 2)).
Proof.
  destruct (Cell__init___rows (fresh ∅) (@nil (@Branch Q unit)) [-1]%Z) as [Hempty _].
  destruct (Cell__init___rows
              (fresh (params_of [1; 1; 1; 1; 1; 1] [1; 1; 1; 1; 1; 1]
                                [1; 1; 1; 1; 1; 1])%Q)
              [branch 2; branch 2; branch 2] [-1; 0; 0]%Z) as [_ Hok].
  destruct (Hok fork fork_constructed) as (Hn & _ & _ & _ & Hrows & _).
  destruct (Hrows 1 (branch 2) eq_refl) as (_ & _ & Hs).
  split_and!; [exact (Hempty eq_refl)|exact Hn|exact Hs].
Defined.

Lemma init_branch_conds_raises_unchanged_witness :
  init_branch_conds fork_without_radius = Raised KeyError fork_without_radius
  /\ junction_conds fork_without_radius = Raise KeyError.
Proof.
  assert (init_branch_conds fork_without_radius = Raised KeyError fork_without_radius)
    as Hinit by (vm_compute; reflexivity).
  split; [exact Hinit|].
  exact (proj2 (init_branch_conds_raises_unchanged _ _ _ Hinit)).
Defined.


Lemma init_branch_conds_missing_key_witness :
  params fork_without_radius !! "radius" = None
  /\ init_branch_conds fork_without_radius = Raised KeyError fork_without_radius.
Proof.
  split; [reflexivity|].
  apply init_branch_conds_missing_key.
  - intros key v Hkey Hv. apply list_elem_of_In in Hkey. simpl in Hkey.
    destruct Hkey as [<-|[<-|[<-|[]]]]; vm_compute in Hv;
      try discriminate Hv; by injection Hv as <-.
  - exists "radius". split; [repeat constructor|reflexivity].
Defined.

Lemma init_branch_conds_frame_witness :
  init_branch_conds fork = Returned tt (after (init_branch_conds fork))
  /\ has_shape (summed_coupling_conds fork) 3 2
  /\ has_shape (summed_coupling_conds (after (init_branch_conds fork))) 3 2
  /\ parents (after (init_branch_conds fork)) = parents fork
  /\ levels (after (init_branch_conds fork)) = levels fork.
Proof.
  destruct (init_branch_conds_frame fork _ 3 2 fork_assembled fork_summed_shape)
    as (Hs & _ & _ & _ & _ & _ & Hp & _ & _ & _ & _ & _ & Hl & _).
  split_and!; [exact fork_assembled|exact fork_summed_shape|exact Hs|exact Hp|exact Hl].
Defined.


Lemma junction_conds_symmetric_witness :
  init_branch_conds fork = Returned tt (after (init_branch_conds fork))
  /\ compartment fork 2 (nseg fork - 1) = Some (mkGeometry 1 1 1)%Q
  /\ compartment fork 0 0 = Some (mkGeometry 1 1 1)%Q
  /\ exists bwd fwd v,
       holds (branch_conds_bwd (after (init_branch_conds fork))) bwd /\
       holds (branch_conds_fwd (after (init_branch_conds fork))) fwd /\
       bwd !! 2 = Some v /\ fwd !! 2 = Some v.
Proof.
  split_and!; [exact fork_assembled|reflexivity|reflexivity|].
  refine (junction_conds_symmetric fork _ 2 0 (mkGeometry 1 1 1)%Q
            fork_assembled fork_parents_in_range _ eq_refl eq_refl eq_refl).
  vm_compute. lia.
Defined.

Lemma minus_one_parent_is_last_branch_witness :
  init_branch_conds second_root = Returned tt (after (init_branch_conds second_root))
  /\ parents second_root !! 1 = Some (-1)%Z
  /\ compartment second_root (nbranches second_root - 1) 0 = Some (mkGeometry 2 4 1)%Q
  /\ branch_conds_bwd (after (init_branch_conds second_root))
     = Val [0; 625000; 5000000]%Q
  /\ exists child last bwd fwd,
       compartment second_root 1 (nseg second_root - 1) = Some child /\
       compartment second_root (nbranches second_root - 1) 0 = Some last /\
       holds (branch_conds_bwd (after (init_branch_conds second_root))) bwd /\
       holds (branch_conds_fwd (after (init_branch_conds second_root))) fwd /\
       bwd !! 1 = Some (to_mS_per_cm2 (coupling last child (resistivity child))) /\
       fwd !! 1 = Some (to_mS_per_cm2 (coupling child last (resistivity last))).
Proof.
  assert (init_branch_conds second_root
          = Returned tt (after (init_branch_conds second_root))) as Hinit
    by (vm_compute; reflexivity).
  split_and!; [exact Hinit|reflexivity|reflexivity|reflexivity|].
  refine (minus_one_parent_is_last_branch second_root _ 1 Hinit eq_refl _ eq_refl).
  vm_compute. lia.
Defined.

Lemma fork_ready_steps :
  step no_channels no_input hold_voltages fork_state 1%Q [] [] fork_ready
  = Returned fork_state fork_ready.
Proof. vm_compute. reflexivity. Defined.

Lemma init_morph_init_branch_conds_commute_witness :
  init_morph num_kids_of one_level index_of_kid kid_table fork
  = Returned tt (after (init_morph num_kids_of one_level index_of_kid kid_table fork))
  /\ init_branch_conds (after (init_morph num_kids_of one_level index_of_kid kid_table
                                          fork))
     = Returned tt (after (init_branch_conds
                             (after (init_morph num_kids_of one_level index_of_kid
                                                kid_table fork))))
  /\ exists assembled,
       init_branch_conds fork = Returned tt assembled /\
       init_morph num_kids_of one_level index_of_kid kid_table assembled
       = Returned tt (after (init_branch_conds
                               (after (init_morph num_kids_of one_level index_of_kid
                                                  kid_table fork)))).
Proof.
  assert (init_morph num_kids_of one_level index_of_kid kid_table fork
          = Returned tt (after (init_morph num_kids_of one_level index_of_kid
                                           kid_table fork))) as Hm
    by (vm_compute; reflexivity).
  assert (init_branch_conds (after (init_morph num_kids_of one_level index_of_kid
                                               kid_table fork))
          = Returned tt (after (init_branch_conds
                                  (after (init_morph num_kids_of one_level index_of_kid
                                                     kid_table fork))))) as Hc
    by (vm_compute; reflexivity).
  split_and!; [exact Hm|exact Hc|].
  exact (init_morph_init_branch_conds_commute num_kids_of one_level index_of_kid
           kid_table fork _ _ Hm Hc).
Defined.

Lemma step_reads_only_witness :
  branch_conds_fwd fork_ready = Val [0; 5000000; 5000000]%Q
  /\ instance_after (step no_channels no_input hold_voltages fork_state 1%Q [] []
                          fork_ready)
     = fork_ready
  /\ instance_after (step no_channels no_input hold_voltages ∅ 1%Q [] [] fork_ready)
     = fork_ready.
Proof.
  split_and!; [reflexivity|..].
  - exact (step_reads_only no_channels no_input hold_voltages fork_ready fork_state
             1%Q [] [] _ eq_refl).
  - exact (step_reads_only no_channels no_input hold_voltages fork_ready ∅
             1%Q [] [] _ eq_refl).
Defined.

Lemma step_needs_init_morph_witness :
  step no_channels no_input hold_voltages fork_state 1%Q [] [] fork_ready
  = Returned fork_state fork_ready
  /\ kid_inds_in_each_level fork_ready <> Unset
  /\ kid_inds_in_each_level (after (init_branch_conds fork)) = Unset.
Proof.
  destruct (step_needs_init_morph no_channels no_input hold_voltages _ _ _ _ _ _ _
              fork_ready_steps) as (_ & Hki & _).
  split_and!; [exact fork_ready_steps|exact Hki|reflexivity].
Defined.

Lemma step_returned_state_witness :
  step no_channels no_input hold_voltages fork_state 1%Q [] [] fork_ready
  = Returned fork_state fork_ready
  /\ exists (fs : gmap string (list Q)) (out : list (list Q)),
       fork_state !! "voltages" = Some (flatten out) /\
       (forall key, key <> "voltages" -> fork_state !! key = fs !! key).
Proof.
  split; [exact fork_ready_steps|].
  destruct (step_returned_state no_channels no_input hold_voltages _ _ _ _ _ _ _
              fork_ready_steps)
    as (v & c0 & states & terms & fs & args & out & _ & _ & _ & _ & _ & _ & Hv & Hk).
  by exists fs, out.
Defined.

Lemma step_assembles_when_None_witness :
  branch_conds_fwd fork_lazy = PyNone
  /\ step no_channels no_input hold_voltages fork_state 1%Q [] [] fork_lazy
     = Returned fork_state
         (after (step no_channels no_input hold_voltages fork_state 1%Q [] [] fork_lazy))
  /\ init_branch_conds fork_lazy
     = Returned tt
         (after (step no_channels no_input hold_voltages fork_state 1%Q [] [] fork_lazy))
  /\ branch_conds_fwd
       (after (step no_channels no_input hold_voltages fork_state 1%Q [] [] fork_lazy))
     = Val [0; 5000000; 5000000]%Q.
Proof.
  assert (step no_channels no_input hold_voltages fork_state 1%Q [] [] fork_lazy
          = Returned fork_state
              (after (step no_channels no_input hold_voltages fork_state 1%Q [] []
                           fork_lazy))) as Hstep
    by (vm_compute; reflexivity).
  destruct (step_assembles_when_None no_channels no_input hold_voltages
              fork_lazy fork_state 1%Q [] [] _ _ eq_refl Hstep) as [Hinit _].
  split_and!; [reflexivity|exact Hstep|exact Hinit|reflexivity].
Defined.

Lemma step_missing_voltages_witness :
  branch_conds_fwd fork_ready = Val [0; 5000000; 5000000]%Q
  /\ (∅ : gmap string (list Q)) !! "voltages" = None
  /\ step no_channels no_input hold_voltages ∅ 1%Q [] [] fork_ready
     = Raised KeyError fork_ready.
Proof.
  split_and!; [reflexivity|reflexivity|].
  exact (step_missing_voltages no_channels no_input hold_voltages fork_ready ∅
           1%Q [] [] _ eq_refl eq_refl).
Defined.

Lemma getattr_after_init_branch_conds_witness :
  init_branch_conds fork = Returned tt (after (init_branch_conds fork))
  /\ getattr module_names fork "branch_conds_fwd" = Raise AssertionError
  /\ exists fwd bwd,
       getattr module_names (after (init_branch_conds fork)) "branch_conds_fwd"
       = Ok (AArray fwd) /\
       getattr module_names (after (init_branch_conds fork)) "branch_conds_bwd"
       = Ok (AArray bwd) /\
       length fwd = 3.
Proof.
  split_and!; [exact fork_assembled|reflexivity|].
  destruct (getattr_after_init_branch_conds module_names fork _ fork_assembled)
    as (fwd & bwd & Hf & Hb & Hl).
  exists fwd, bwd. split_and!; [exact Hf|exact Hb|].
  exact (proj1 (Hl ltac:(vm_compute; lia))).
Defined.

Lemma parents_in_each_level_distinct_witness :
  init_morph num_kids_of one_level index_of_kid kid_table fork
  = Returned tt (after (init_morph num_kids_of one_level index_of_kid kid_table fork))
  /\ parents_in_each_level
       (after (init_morph num_kids_of one_level index_of_kid kid_table fork))
     = Val [[-1; 0]%Z]
  /\ exists bil pil,
       holds (branches_in_each_level
                (after (init_morph num_kids_of one_level index_of_kid kid_table fork)))
             bil /\
       holds (parents_in_each_level
                (after (init_morph num_kids_of one_level index_of_kid kid_table fork)))
             pil /\
       length pil = length bil.
Proof.
  assert (init_morph num_kids_of one_level index_of_kid kid_table fork
          = Returned tt (after (init_morph num_kids_of one_level index_of_kid
                                           kid_table fork))) as Hm
    by (vm_compute; reflexivity).
  split_and!; [exact Hm|reflexivity|].
  destruct (parents_in_each_level_distinct num_kids_of one_level index_of_kid
              kid_table fork _ Hm) as (bil & pil & Hb & Hp & Hl & _).
  by exists bil, pil.
Defined.


Lemma step_lazy_assembly_raises_witness :
  branch_conds_fwd fork_lazy_without_radius = PyNone
  /\ junction_conds fork_lazy_without_radius = Raise KeyError
  /\ step no_channels no_input hold_voltages fork_state 1%Q [] []
          fork_lazy_without_radius
     = Raised KeyError fork_lazy_without_radius.
Proof.
  split_and!; [reflexivity|reflexivity|].
  exact (step_lazy_assembly_raises no_channels no_input hold_voltages
           fork_lazy_without_radius fork_state 1%Q [] [] KeyError eq_refl eq_refl).
Defined.

Lemma init_morph_frame_witness :
  init_morph num_kids_of one_level index_of_kid kid_table fork
  = Returned tt (after (init_morph num_kids_of one_level index_of_kid kid_table fork))
  /\ initialized_morph
       (after (init_morph num_kids_of one_level index_of_kid kid_table fork)) = true
  /\ summed_coupling_conds
       (instance_after (init_morph num_kids_of one_level index_of_kid kid_table fork))
     = summed_coupling_conds fork.
Proof.
  assert (init_morph num_kids_of one_level index_of_kid kid_table fork
          = Returned tt (after (init_morph num_kids_of one_level index_of_kid
                                           kid_table fork))) as Hm
    by (vm_compute; reflexivity).
  destruct (init_morph_frame num_kids_of one_level index_of_kid kid_table fork)
    as ((Hs & _) & Hret & _).
  split_and!; [exact Hm|exact (Hret _ Hm)|exact Hs].
Defined.
